(** * A shallow embedding of [ramlfications/parameters.py]

    Python values are modelled by [pyval]; an instance of an [attr.s]
    class is its attribute store (an association list from attribute
    names to values, in the order [__init__] sets them), so that
    [getattr], [setattr] and the in-place merges of
    [_inherit_type_properties] are modelled as the source writes them.
    Exceptions raised by the source are the [Err] case of [res]. *)

From Stdlib Require Import String Ascii List ZArith Bool Arith Lia.
From Stdlib Require Import Sorting.Permutation Sorting.Sorted.
Import ListNotations.
Open Scope string_scope.

(** ** Python values *)

(** [VRef l] is a reference to a mutable Python list (the [errors]
    collection); two [VRef] with the same location are the same object.
    [VObj cls attrs] is an instance of class [cls]. *)
Local Unset Elimination Schemes.
Inductive pyval : Type :=
| VNone
| VBool (b : bool)
| VInt (z : Z)
| VStr (s : string)
| VList (xs : list pyval)
| VDict (kvs : list (pyval * pyval))
| VObj (cls : string) (attrs : list (string * pyval))
| VRef (loc : nat).
Local Set Elimination Schemes.

(** Python's [==]: [True == 1] and [False == 0]; lists compare element
    by element; dicts compare as key/value sets; mutable list references
    compare by identity (their contents are not modelled). *)
Definition num_of (v : pyval) : option Z :=
  match v with
  | VBool b => Some (if b then 1%Z else 0%Z)
  | VInt z => Some z
  | _ => None
  end.

Fixpoint py_eq (a b : pyval) {struct a} : bool :=
  match a, b with
  | VNone, VNone => true
  | VStr s, VStr t => String.eqb s t
  | VList xs, VList ys =>
      (fix go (xs ys : list pyval) : bool :=
         match xs, ys with
         | [], [] => true
         | x :: xs', y :: ys' => py_eq x y && go xs' ys'
         | _, _ => false
         end) xs ys
  | VDict xs, VDict ys =>
      Nat.eqb (length xs) (length ys) &&
      (fix all (xs : list (pyval * pyval)) : bool :=
         match xs with
         | [] => true
         | (k, v) :: xs' =>
             existsb (fun kv => py_eq k (fst kv) && py_eq v (snd kv)) ys
             && all xs'
         end) xs
  | VObj c xs, VObj d ys =>
      String.eqb c d && Nat.eqb (length xs) (length ys) &&
      (fix all (xs : list (string * pyval)) : bool :=
         match xs with
         | [] => true
         | (k, v) :: xs' =>
             existsb (fun kv => String.eqb k (fst kv) && py_eq v (snd kv)) ys
             && all xs'
         end) xs
  | VRef l, VRef m => Nat.eqb l m
  | _, _ =>
      match num_of a, num_of b with
      | Some x, Some y => Z.eqb x y
      | _, _ => false
      end
  end.

(** Python truthiness.  Instances of [attr.s] classes define neither
    [__bool__] nor [__len__], so they are truthy; the [errors] lists
    never occur where truthiness is tested, and are taken as truthy. *)
Definition py_truthy (v : pyval) : bool :=
  match v with
  | VNone => false
  | VBool b => b
  | VInt z => negb (Z.eqb z 0)
  | VStr s => negb (String.eqb s "")
  | VList xs => negb (Nat.eqb (length xs) 0)
  | VDict kvs => negb (Nat.eqb (length kvs) 0)
  | VObj _ _ => true
  | VRef _ => true
  end.

(** [v is None] *)
Definition is_none (v : pyval) : bool :=
  match v with VNone => true | _ => false end.

(** ** Exceptions *)

Inductive exn : Type :=
| AttributeError
| TypeError
| IndexError
| AssertionError (msg : string)
| ValidationError (msg : string).

Inductive res (A : Type) : Type :=
| Ok (a : A)
| Err (e : exn).
Arguments Ok {A} a.
Arguments Err {A} e.

Definition bind {A B} (m : res A) (k : A -> res B) : res B :=
  match m with Ok a => k a | Err e => Err e end.
Notation "x <- m ;; k" := (bind m (fun x => k))
  (at level 61, m at next level, right associativity).

Fixpoint mapM {A B} (f : A -> res B) (xs : list A) : res (list B) :=
  match xs with
  | [] => Ok []
  | x :: xs' => y <- f x ;; ys <- mapM f xs' ;; Ok (y :: ys)
  end.

(** ** Attribute stores *)

Definition obj := list (string * pyval).

(** [self.n]; [None] is an [AttributeError]. *)
Fixpoint getattr_opt (o : obj) (n : string) : option pyval :=
  match o with
  | [] => None
  | (k, v) :: o' => if String.eqb k n then Some v else getattr_opt o' n
  end.

(** [getattr(o, n, d)] *)
Definition getattr (o : obj) (n : string) (d : pyval) : pyval :=
  match getattr_opt o n with Some v => v | None => d end.

(** [setattr(o, n, v)]: overwrite in place, or add a new attribute. *)
Fixpoint setattr (o : obj) (n : string) (v : pyval) : obj :=
  match o with
  | [] => [(n, v)]
  | (k, w) :: o' =>
      if String.eqb k n then (k, v) :: o' else (k, w) :: setattr o' n v
  end.

(** [dict.get(item)] on the key/value list of a dict. *)
Fixpoint dict_get (kvs : list (pyval * pyval)) (item : pyval) : option pyval :=
  match kvs with
  | [] => None
  | (k, v) :: kvs' => if py_eq k item then Some v else dict_get kvs' item
  end.

(** [BaseParameter._get]: [data.get(item, default)], with the
    [AttributeError] of a non-mapping [data] (such as [None]) caught. *)
Definition _get (data item default : pyval) : pyval :=
  match data with
  | VDict kvs => match dict_get kvs item with Some v => v | None => default end
  | _ => default
  end.

(** ** Inheritance merges ([_inherit_type_properties]) *)

Definition NAMED_PARAMS : list string :=
  ["desc"; "type"; "enum"; "pattern"; "minimum"; "maximum"; "example";
   "default"; "required"; "repeat"; "display_name"; "max_length";
   "min_length"].

(** The body of the inner loop [for n in params: attr = getattr(self, n,
    None); if attr is None: setattr(self, n, getattr(param, n, None))]. *)
Definition fill_one (self param : obj) (n : string) : obj :=
  match getattr self n VNone with
  | VNone => setattr self n (getattr param n VNone)
  | _ => self
  end.

Definition fill_unset (self param : obj) (params : list string) : obj :=
  fold_left (fun self n => fill_one self param n) params self.

(** [getattr(param, "name", getattr(param, "code", None))] *)
Definition param_ident (param : obj) : pyval :=
  getattr param "name" (getattr param "code" VNone).

(** [BaseParameter._inherit_type_properties]: the loop body for one
    [param]; [self.name] is read at every iteration. *)
Definition BaseParameter_inherit_step (acc : res obj) (param : obj) : res obj :=
  self <- acc ;;
  match getattr_opt self "name" with
  | None => Err AttributeError
  | Some self_name =>
      if py_eq (param_ident param) self_name
      then Ok (fill_unset self param NAMED_PARAMS) else Ok self
  end.

Definition BaseParameter_inherit_type_properties (self : obj)
    (inherited_param : list obj) : res obj :=
  fold_left BaseParameter_inherit_step inherited_param (Ok self).

(** [Header._inherit_type_properties]: no name test. *)
Definition Header_inherit_type_properties (self : obj)
    (inherited_param : list obj) : obj :=
  fold_left (fun self param => fill_unset self param (NAMED_PARAMS ++ ["method"]))
    inherited_param self.

Definition body_params : list string := ["schema"; "example"; "form_params"].

(** [Body._inherit_type_properties]: [param.mime_type != self.mime_type]
    skips the ancestor. *)
Definition Body_inherit_step (acc : res obj) (param : obj) : res obj :=
  self <- acc ;;
  match getattr_opt param "mime_type", getattr_opt self "mime_type" with
  | Some pm, Some sm =>
      if negb (py_eq pm sm) then Ok self
      else Ok (fill_unset self param body_params)
  | _, _ => Err AttributeError
  end.

Definition Body_inherit_type_properties (self : obj)
    (inherited_param : list obj) : res obj :=
  fold_left Body_inherit_step inherited_param (Ok self).

(** [Response._inherit_type_properties] *)
Definition Response_inherit_type_properties (self : obj)
    (inherited_param : list obj) : obj :=
  fold_left (fun self param => fill_unset self param NAMED_PARAMS)
    inherited_param self.

(** ** [attr.s] construction and validators *)

(** The validators attached to the fields.  [InstanceOfDict] is
    [attr.validators.instance_of(dict)]; the others are the functions
    imported from [ramlfications.validate]. *)
Inductive validator : Type :=
| InstanceOfDict
| StringTypeParameter
| IntegerNumberTypeParameter
| HeaderType
| BodyMimeType
| BodySchema
| BodyExample
| BodyForm
| ResponseCode
| DefinedSecSchemeSettings.

(** An [attr.ib()]: its name, its default (if any) and its validator. *)
Record field : Type := mk_field {
  fname : string;
  fdefault : option pyval;
  fvalidator : option validator
}.

(** The collaborators of [parameters.py] outside this file: the
    validator functions of [ramlfications.validate] (called as
    [v(inst, attribute, value)]; [Some msg] when the call raises) and
    [ramlfications.utils.load_schema].  Results about this file hold for
    every behaviour of these. *)
Record env : Type := mk_env {
  check : validator -> obj -> string -> pyval -> option string;
  load_schema : pyval -> res pyval
}.

Definition is_dict (v : pyval) : bool :=
  match v with VDict _ => true | _ => false end.

Fixpoint assoc (kws : list (string * pyval)) (k : string) : option pyval :=
  match kws with
  | [] => None
  | (k', v) :: kws' => if String.eqb k' k then Some v else assoc kws' k
  end.

(** Running the validators of the fields, in field order, on the fully
    initialised instance. *)
Fixpoint run_validators (E : env) (inst : obj) (fields : list field) : res unit :=
  match fields with
  | [] => Ok tt
  | f :: fs =>
      let v := getattr inst (fname f) VNone in
      match fvalidator f with
      | None => run_validators E inst fs
      | Some InstanceOfDict =>
          if is_dict v then run_validators E inst fs else Err TypeError
      | Some vk =>
          match check E vk inst (fname f) v with
          | Some msg => Err (ValidationError msg)
          | None => run_validators E inst fs
          end
      end
  end.

(** The value [__init__] gives a field: its keyword argument, else its
    default; a missing mandatory argument is a [TypeError]. *)
Definition field_value (kwargs : list (string * pyval)) (f : field) : res (string * pyval) :=
  match assoc kwargs (fname f), fdefault f with
  | Some v, _ => Ok (fname f, v)
  | None, Some d => Ok (fname f, d)
  | None, None => Err TypeError
  end.

(** The [__init__] generated by [attr.s]: an unknown keyword or a missing
    mandatory argument is a [TypeError]; every field is set (from the
    keyword or its default), then the validators run. *)
Definition attrs_new (E : env) (fields : list field)
    (kwargs : list (string * pyval)) : res obj :=
  if forallb (fun kw => existsb (fun f => String.eqb (fname f) (fst kw)) fields) kwargs
  then
    inst <- mapM (field_value kwargs) fields ;;
    _ <- run_validators E inst fields ;;
    Ok inst
  else Err TypeError.

Definition plain (n : string) : field := mk_field n None None.

Definition BaseParameter_fields : list field :=
  [plain "name";
   mk_field "raw" None (Some InstanceOfDict);
   plain "desc";
   plain "display_name";
   mk_field "min_length" None (Some StringTypeParameter);
   mk_field "max_length" None (Some StringTypeParameter);
   mk_field "minimum" None (Some IntegerNumberTypeParameter);
   mk_field "maximum" None (Some IntegerNumberTypeParameter);
   plain "example";
   plain "default";
   mk_field "config" None (Some InstanceOfDict);
   plain "errors";
   mk_field "repeat" (Some (VBool false)) None;
   mk_field "pattern" (Some VNone) (Some StringTypeParameter);
   mk_field "enum" (Some VNone) (Some StringTypeParameter)].

(** The classes of the named parameters ([cls] in the classmethods). *)
Inductive param_cls : Type :=
| BaseParameter
| URIParameter
| QueryParameter
| FormParameter
| Header.

Definition cls_name (cls : param_cls) : string :=
  match cls with
  | BaseParameter => "BaseParameter"
  | URIParameter => "URIParameter"
  | QueryParameter => "QueryParameter"
  | FormParameter => "FormParameter"
  | Header => "Header"
  end.

(** The [attr.ib]s of each class: the inherited ones first, then the
    class's own. *)
Definition cls_fields (cls : param_cls) : list field :=
  match cls with
  | BaseParameter => BaseParameter_fields
  | URIParameter =>
      BaseParameter_fields ++
      [mk_field "required" (Some (VBool true)) None;
       mk_field "type" (Some (VStr "string")) None]
  | QueryParameter | FormParameter =>
      BaseParameter_fields ++
      [mk_field "required" (Some (VBool false)) None;
       mk_field "type" (Some (VStr "string")) None]
  | Header =>
      BaseParameter_fields ++
      [mk_field "type" (Some (VStr "string")) (Some HeaderType);
       mk_field "method" (Some VNone) None;
       mk_field "required" (Some (VBool false)) None]
  end.

(** The [errors=[]] default arguments: one list object per function,
    created when its [def] ran and shared by every call that omits the
    argument.  A classmethod inherited by a subclass ([Header.init_list])
    is the same function, with the same default. *)
Definition BaseParameter_init_errors_default : pyval := VRef 0.
Definition BaseParameter_init_list_errors_default : pyval := VRef 1.
Definition Body_init_errors_default : pyval := VRef 2.
Definition Body_init_list_errors_default : pyval := VRef 3.
Definition Response_init_errors_default : pyval := VRef 4.
Definition Response_init_list_errors_default : pyval := VRef 5.

(** The [required] local of [BaseParameter.init]. *)
Definition init_required (cls : param_cls) (data : pyval) : pyval :=
  match cls with
  | URIParameter => _get data (VStr "required") (VBool true)
  | _ => _get data (VStr "required") (VBool false)
  end.

(** The [arguments] dict of [BaseParameter.init]; [kwargs] is the dict
    of extra keyword arguments. *)
Definition init_arguments (cls : param_cls)
    (name data config errors kwargs : pyval) : list (string * pyval) :=
  let arguments :=
    [("name", name);
     ("raw", VDict [(name, data)]);
     ("desc", _get data (VStr "description") VNone);
     ("display_name", _get data (VStr "displayName") name);
     ("min_length", _get data (VStr "minLength") VNone);
     ("max_length", _get data (VStr "maxLength") VNone);
     ("minimum", _get data (VStr "minimum") VNone);
     ("maximum", _get data (VStr "maximum") VNone);
     ("default", _get data (VStr "default") VNone);
     ("enum", _get data (VStr "enum") VNone);
     ("example", _get data (VStr "example") VNone);
     ("required", init_required cls data);
     ("repeat", _get data (VStr "repeat") (VBool false));
     ("pattern", _get data (VStr "pattern") VNone);
     ("type", _get data (VStr "type") (VStr "string"));
     ("config", config);
     ("errors", errors)] in
  match cls with
  | Header => (arguments ++ [("method", _get kwargs (VStr "method") VNone)])%list
  | _ => arguments
  end.

(** [BaseParameter.init] *)
Definition BaseParameter_init (E : env) (cls : param_cls)
    (name data config errors kwargs : pyval) : res pyval :=
  inst <- attrs_new E (cls_fields cls) (init_arguments cls name data config errors kwargs) ;;
  Ok (VObj (cls_name cls) inst).

(** [BaseParameter.init_list]: [iteritems] of a non-mapping raises
    [AttributeError]; an empty result becomes [None]. *)
Definition BaseParameter_init_list (E : env) (cls : param_cls)
    (data config errors kwargs : pyval) : res pyval :=
  match data with
  | VDict kvs =>
      objects <- mapM (fun kv => BaseParameter_init E cls (fst kv) (snd kv)
                                   config errors kwargs) kvs ;;
      Ok (match objects with [] => VNone | _ => VList objects end)
  | _ => Err AttributeError
  end.

Definition Body_fields : list field :=
  [mk_field "mime_type" None (Some BodyMimeType);
   mk_field "raw" None (Some InstanceOfDict);
   mk_field "schema" None (Some BodySchema);
   mk_field "example" None (Some BodyExample);
   mk_field "form_params" None (Some BodyForm);
   mk_field "config" None (Some InstanceOfDict);
   plain "errors"].

Definition Body_arguments (name data schema example config errors : pyval)
    : list (string * pyval) :=
  [("mime_type", name);
   ("raw", data);
   ("schema", schema);
   ("example", example);
   ("form_params", _get data (VStr "formParameters") VNone);
   ("config", config);
   ("errors", errors)].

(** [Body.init] *)
Definition Body_init (E : env) (name data config errors kwargs : pyval) : res pyval :=
  schema <- load_schema E (_get data (VStr "schema") VNone) ;;
  example <- load_schema E (_get data (VStr "example") VNone) ;;
  inst <- attrs_new E Body_fields
            (Body_arguments name data schema example config errors) ;;
  Ok (VObj "Body" inst).

(** [Body.init_list]: the list of bodies, with no [or None]. *)
Definition Body_init_list (E : env) (data config errors kwargs : pyval) : res pyval :=
  match data with
  | VDict kvs =>
      bodies <- mapM (fun kv => Body_init E (fst kv) (snd kv) config errors kwargs) kvs ;;
      Ok (VList bodies)
  | _ => Err AttributeError
  end.

Definition Response_fields : list field :=
  [mk_field "code" None (Some ResponseCode);
   mk_field "raw" None (Some InstanceOfDict);
   plain "desc";
   plain "headers";
   plain "body";
   mk_field "config" None (Some InstanceOfDict);
   plain "errors";
   mk_field "method" (Some VNone) None].

Definition Response_arguments (name data headers body config errors : pyval)
    : list (string * pyval) :=
  [("code", name);
   ("raw", data);
   ("desc", _get data (VStr "description") VNone);
   ("headers", headers);
   ("body", body);
   ("config", config);
   ("errors", errors)].

(** [Response.init]: [data.get] raises on a non-mapping [data]; the
    nested [init_list] calls receive no [errors] argument. *)
Definition Response_init (E : env) (name data config errors kwargs : pyval) : res pyval :=
  match data with
  | VDict _ =>
      headers <- BaseParameter_init_list E Header
                   (_get data (VStr "headers") (VDict [])) config
                   BaseParameter_init_list_errors_default (VDict []) ;;
      body <- Body_init_list E (_get data (VStr "body") (VDict [])) config
                Body_init_list_errors_default (VDict []) ;;
      inst <- attrs_new E Response_fields
                (Response_arguments name data headers body config errors) ;;
      Ok (VObj "Response" inst)
  | _ => Err AttributeError
  end.

(** *** [sorted(..., key=lambda x: x.code)]

    Python's [sorted] is stable.  Keys that are all numbers ([int] or
    [bool]) or all strings are ordered by [<]; a comparison between a
    number and a string, or involving [None], raises [TypeError].  A
    comparison sort compares every pair of neighbours of its output, so a
    list of two or more keys that are not all numbers or all strings
    raises; a list of at most one element is returned without any
    comparison. *)
Inductive sort_key : Type :=
| KNum (z : Z)
| KStr (s : string).

Definition key_of (v : pyval) : option sort_key :=
  match v with
  | VBool b => Some (KNum (if b then 1%Z else 0%Z))
  | VInt z => Some (KNum z)
  | VStr s => Some (KStr s)
  | _ => None
  end.

(** [a <= b] on keys of one kind (numbers before strings otherwise, an
    order [sorted] never uses since it raises on mixed keys). *)
Definition key_le (a b : sort_key) : bool :=
  match a, b with
  | KNum x, KNum y => Z.leb x y
  | KStr s, KStr t => String.leb s t
  | KNum _, KStr _ => true
  | KStr _, KNum _ => false
  end.

Definition same_kind (a b : sort_key) : bool :=
  match a, b with
  | KNum _, KNum _ | KStr _, KStr _ => true
  | _, _ => false
  end.

Definition code_of (r : pyval) : pyval :=
  match r with VObj _ attrs => getattr attrs "code" VNone | _ => VNone end.

Definition code_key (r : pyval) : sort_key :=
  match key_of (code_of r) with Some k => k | None => KNum 0 end.

Definition code_le (a b : pyval) : bool := key_le (code_key a) (code_key b).

(** Insertion of a later element after every element not greater than
    it: the order a stable sort produces. *)
Fixpoint insert_by {A : Type} (le : A -> A -> bool) (x : A) (ys : list A) : list A :=
  match ys with
  | [] => [x]
  | y :: ys' => if le y x then y :: insert_by le x ys' else x :: ys
  end.

Definition sort_by {A : Type} (le : A -> A -> bool) (xs : list A) : list A :=
  fold_left (fun acc x => insert_by le x acc) xs [].

Definition keys_comparable (rs : list pyval) : bool :=
  match rs with
  | [] | [_] => true
  | r :: _ =>
      match key_of (code_of r) with
      | None => false
      | Some k0 =>
          forallb (fun r' => match key_of (code_of r') with
                             | Some k => same_kind k0 k
                             | None => false
                             end) rs
      end
  end.

Definition sorted_by_code (rs : list pyval) : res (list pyval) :=
  if keys_comparable rs then Ok (sort_by code_le rs) else Err TypeError.

(** [Response.init_list] *)
Definition Response_init_list (E : env) (data config errors kwargs : pyval) : res pyval :=
  match data with
  | VDict kvs =>
      responses <- mapM (fun kv => Response_init E (fst kv) (snd kv) config errors kwargs) kvs ;;
      sorted <- sorted_by_code responses ;;
      Ok (VList sorted)
  | _ => Err AttributeError
  end.

(** *** [SecurityScheme.from_file] *)

Definition SecurityScheme_fields : list field :=
  [plain "name";
   mk_field "raw" None (Some InstanceOfDict);
   plain "type";
   plain "described_by";
   plain "desc";
   mk_field "settings" None (Some DefinedSecSchemeSettings);
   plain "config";
   plain "errors"].

(** The [classes] table. *)
Inductive described_class : Type :=
| DHeaders
| DBody
| DResponses
| DParams (attribute_name : string) (cls : param_cls).

Definition classes (key : pyval) : option described_class :=
  match key with
  | VStr "headers" => Some DHeaders
  | VStr "body" => Some DBody
  | VStr "responses" => Some DResponses
  | VStr "queryParameters" => Some (DParams "query_params" QueryParameter)
  | VStr "uriParameters" => Some (DParams "uri_params" URIParameter)
  | VStr "formParameters" => Some (DParams "form_params" FormParameter)
  | _ => None
  end.

(** The [other] table. *)
Definition other (key : pyval) : option string :=
  match key with
  | VStr "usage" => Some "usage"
  | VStr "mediaType" => Some "media_type"
  | VStr "protocols" => Some "protocols"
  | _ => None
  end.

(** [data_cls.init_list(scheme_data, root.config)]: no [errors]
    argument, no keyword arguments. *)
Definition dispatch_init_list (E : env) (c : described_class)
    (scheme_data config : pyval) : string * res pyval :=
  match c with
  | DHeaders =>
      ("headers", BaseParameter_init_list E Header scheme_data config
                    BaseParameter_init_list_errors_default (VDict []))
  | DBody =>
      ("body", Body_init_list E scheme_data config
                 Body_init_list_errors_default (VDict []))
  | DResponses =>
      ("responses", Response_init_list E scheme_data config
                      Response_init_list_errors_default (VDict []))
  | DParams attribute_name cls =>
      (attribute_name, BaseParameter_init_list E cls scheme_data config
                         BaseParameter_init_list_errors_default (VDict []))
  end.

(** [Documentation(i.get("title"), i.get("content"))] *)
Definition Documentation_of (i : pyval) : res pyval :=
  match i with
  | VDict _ =>
      Ok (VObj "Documentation"
            [("_title", _get i (VStr "title") VNone);
             ("_content", _get i (VStr "content") VNone)])
  | _ => Err AttributeError
  end.

(** One iteration of [for obj, scheme_data in iteritems(described_by)]. *)
Definition described_by_step (E : env) (config : pyval)
    (acc : res obj) (kv : pyval * pyval) : res obj :=
  scheme <- acc ;;
  let (o, scheme_data) := kv in
  match classes o with
  | Some c =>
      let (attribute_name, r) := dispatch_init_list E c scheme_data config in
      v <- r ;; Ok (setattr scheme attribute_name v)
  | None =>
      if py_eq o (VStr "documentation") then
        match scheme_data with
        | VList items =>
            docs <- mapM Documentation_of items ;;
            Ok (setattr scheme "documentation"
                  (match docs with [] => VNone | _ => VList docs end))
        | _ => Err (AssertionError "Error parsing documentation")
        end
      else
        match other o with
        | Some a => Ok (setattr scheme a scheme_data)
        | None => Ok scheme
        end
  end.

(** The body of [for s in schemes] for one scheme [s]; [root.config]
    and [root.errors] are read after the scheme's own fields. *)
Definition SecurityScheme_of (E : env) (root : obj) (s : pyval) : res pyval :=
  match s with
  | VDict [] => Err IndexError
  | VDict ((name, data) :: _) =>
      match data with
      | VDict _ =>
          match getattr_opt root "config", getattr_opt root "errors" with
          | Some config, Some errors =>
              scheme <- attrs_new E SecurityScheme_fields
                          [("name", name);
                           ("raw", data);
                           ("type", _get data (VStr "type") VNone);
                           ("described_by", _get data (VStr "describedBy") (VDict []));
                           ("desc", _get data (VStr "description") VNone);
                           ("settings", _get data (VStr "settings") VNone);
                           ("config", config);
                           ("errors", errors)] ;;
              match getattr scheme "described_by" VNone with
              | VDict items =>
                  scheme <- fold_left (described_by_step E config) items (Ok scheme) ;;
                  Ok (VObj "SecurityScheme" scheme)
              | _ => Err AttributeError
              end
          | _, _ => Err AttributeError
          end
      | _ => Err AttributeError
      end
  | _ => Err AttributeError
  end.

(** [SecurityScheme.from_file(raml, root)], with [root] the attribute
    store of the root node.  Iterating a dict of schemes (or a string)
    yields strings, on which [iterkeys] raises. *)
Definition SecurityScheme_from_file (E : env) (raml : pyval) (root : obj) : res pyval :=
  match raml with
  | VDict _ =>
      match _get raml (VStr "securitySchemes") (VList []) with
      | VList schemes =>
          scheme_objs <- mapM (SecurityScheme_of E root) schemes ;;
          Ok (match scheme_objs with [] => VNone | _ => VList scheme_objs end)
      | VDict [] | VStr "" => Ok VNone
      | VDict _ | VStr _ => Err AttributeError
      | _ => Err TypeError
      end
  | _ => Err AttributeError
  end.

(** *** The [description] properties and [Content] *)

Record Content : Type := mk_Content { Content_data : pyval }.

(** [Content.raw] *)
Definition Content_raw (c : Content) : pyval := Content_data c.

(** [if self.desc: return Content(self.desc)] / [return None]. *)
Definition BaseParameter_description (self : obj) : res (option Content) :=
  match getattr_opt self "desc" with
  | None => Err AttributeError
  | Some d => Ok (if py_truthy d then Some (mk_Content d) else None)
  end.

Definition Header_description (self : obj) : res (option Content) :=
  match getattr_opt self "desc" with
  | None => Err AttributeError
  | Some d => Ok (if py_truthy d then Some (mk_Content d) else None)
  end.

Definition Response_description (self : obj) : res (option Content) :=
  match getattr_opt self "desc" with
  | None => Err AttributeError
  | Some d => Ok (if py_truthy d then Some (mk_Content d) else None)
  end.

Definition SecurityScheme_description (self : obj) : res (option Content) :=
  match getattr_opt self "desc" with
  | None => Err AttributeError
  | Some d => Ok (if py_truthy d then Some (mk_Content d) else None)
  end.



(** ** The validators, for concrete runs *)

(** Modelled from the spec: the validator functions of
    [ramlfications.validate] (not part of this file).  Following the
    spec, a check only raises in strict mode ([config["validate"]]
    truthy); in permissive mode the failure is recorded as a diagnostic
    and construction continues (the recorded diagnostic is not modelled
    here).  [string_type_parameter] rejects a set length, [pattern] or
    [enum] field unless [type] is ["string"];
    [integer_number_type_parameter] rejects a set [minimum]/[maximum]
    unless [type] is ["integer"] or ["number"]; [header_type] checks the
    type against the named-parameter primitive types;
    [response_code] wants a number in the HTTP range or ["default"]; the
    body checks make [schema]/[example] and [form_params] mutually
    exclusive and require [form_params] for the form MIME types.
    [defined_sec_scheme_settings] is left accepting: the spec names no
    setting keys. *)
Definition header_types : list string :=
  ["string"; "number"; "integer"; "date"; "boolean"; "file"].

Definition form_mime_types : list string :=
  ["multipart/form-data"; "application/x-www-form-urlencoded"].

Definition is_str_in (v : pyval) (l : list string) : bool :=
  match v with VStr s => existsb (String.eqb s) l | _ => false end.

Definition strict_mode (inst : obj) : bool :=
  py_truthy (_get (getattr inst "config" VNone) (VStr "validate") VNone).

Definition spec_check (vk : validator) (inst : obj) (attr : string) (value : pyval)
    : option string :=
  let fails :=
    match vk with
    | InstanceOfDict => negb (is_dict value)
    | StringTypeParameter =>
        negb (is_none value) && negb (is_str_in (getattr inst "type" VNone) ["string"])
    | IntegerNumberTypeParameter =>
        negb (is_none value) &&
        negb (is_str_in (getattr inst "type" VNone) ["integer"; "number"])
    | HeaderType => negb (is_str_in value header_types)
    | BodyMimeType => match value with VStr _ => false | _ => true end
    | BodySchema | BodyExample =>
        negb (is_none value) && is_str_in (getattr inst "mime_type" VNone) form_mime_types
    | BodyForm =>
        (is_none value && is_str_in (getattr inst "mime_type" VNone) form_mime_types) ||
        (negb (is_none value) &&
         negb (is_none (getattr inst "schema" VNone) && is_none (getattr inst "example" VNone)))
    | ResponseCode =>
        match value with
        | VInt z => negb (Z.leb 100 z && Z.leb z 599)
        | VStr "default" => false
        | _ => true
        end
    | DefinedSecSchemeSettings => false
    end in
  if fails && strict_mode inst then Some (attr ++ " failed validation") else None.

(** [load_schema] returns an inline value unchanged (the spec: the
    original value when it does not name a file). *)
Definition spec_env : env := mk_env spec_check (fun v => Ok v).

(** ** Properties of the merges *)

(** The value a per-attribute scan of [ps] finds: the first ancestor
    whose [n] is not [None]; [None] when there is none. *)
Fixpoint first_set (n : string) (ps : list obj) : pyval :=
  match ps with
  | [] => VNone
  | p :: ps' =>
      match getattr p n VNone with
      | VNone => first_set n ps'
      | v => v
      end
  end.

Lemma getattr_opt_setattr (o : obj) (n m : string) (v : pyval) :
  getattr_opt (setattr o n v) m =
  if String.eqb n m then Some v else getattr_opt o m.
Proof.
  induction o as [|[k w] o IH]; simpl.
  - rewrite String.eqb_sym. reflexivity.
  - destruct (String.eqb k n) eqn:Ekn; simpl.
    + apply String.eqb_eq in Ekn; subst k.
      destruct (String.eqb n m); reflexivity.
    + rewrite IH. destruct (String.eqb n m) eqn:Enm; [|reflexivity].
      apply String.eqb_eq in Enm; subst m. rewrite Ekn. reflexivity.
Qed.

Lemma fill_unset_cons (self param : obj) (n : string) (params : list string) :
  fill_unset self param (n :: params) =
  fill_unset (fill_one self param n) param params.
Proof. reflexivity. Qed.

Lemma fill_unset_spec (ns : list string) (self p : obj) (m : string) :
  getattr_opt (fill_unset self p ns) m =
  if existsb (String.eqb m) ns && is_none (getattr self m VNone)
  then Some (getattr p m VNone) else getattr_opt self m.
Proof.
  revert self. induction ns as [|n ns IH]; intro self; [reflexivity|].
  rewrite fill_unset_cons, IH. simpl existsb. unfold fill_one, getattr at 1 3.
  destruct (String.eqb m n) eqn:Emn; simpl.
  - apply String.eqb_eq in Emn; subst n.
    unfold getattr.
    destruct (getattr_opt self m) as [[]|] eqn:Es; simpl;
      rewrite ?getattr_opt_setattr, ?String.eqb_refl, ?Es, ?andb_false_r;
      simpl; try reflexivity;
      destruct (getattr_opt p m) as [[]|]; simpl;
      rewrite ?andb_true_r, ?andb_false_r; destruct (existsb _ _); reflexivity.
  - unfold getattr.
    destruct (getattr_opt self n) as [[]|] eqn:Es; simpl;
      rewrite ?getattr_opt_setattr;
      assert (Enm : String.eqb n m = false)
        by (rewrite String.eqb_sym; exact Emn);
      rewrite ?Enm; reflexivity.
Qed.

Lemma fill_unset_getattr (ns : list string) (self p : obj) (m : string) :
  getattr (fill_unset self p ns) m VNone =
  if existsb (String.eqb m) ns && is_none (getattr self m VNone)
  then getattr p m VNone else getattr self m VNone.
Proof.
  unfold getattr at 1. rewrite fill_unset_spec.
  destruct (_ && _); reflexivity.
Qed.

(** The unfiltered merge loop used by [Header] and [Response]. *)
Lemma fold_fill_getattr (ns : list string) (ps : list obj) (self : obj) (m : string) :
  getattr (fold_left (fun s p => fill_unset s p ns) ps self) m VNone =
  if existsb (String.eqb m) ns && is_none (getattr self m VNone)
  then first_set m ps else getattr self m VNone.
Proof.
  revert self. induction ps as [|p ps IH]; intro self; simpl.
  - destruct (_ && _) eqn:E; [|reflexivity].
    apply andb_prop in E as [_ E].
    destruct (getattr self m VNone); try discriminate; reflexivity.
  - rewrite IH, fill_unset_getattr.
    destruct (existsb (String.eqb m) ns) eqn:Ein; simpl; [|reflexivity].
    destruct (is_none (getattr self m VNone)) eqn:En; simpl.
    + destruct (getattr p m VNone); reflexivity.
    + rewrite En. reflexivity.
Qed.

Lemma fold_fill_frame (ns : list string) (ps : list obj) (self : obj) (m : string) :
  existsb (String.eqb m) ns && is_none (getattr self m VNone) = false ->
  getattr_opt (fold_left (fun s p => fill_unset s p ns) ps self) m =
  getattr_opt self m.
Proof.
  revert self. induction ps as [|p ps IH]; intros self H; simpl; [reflexivity|].
  assert (Hs : getattr_opt (fill_unset self p ns) m = getattr_opt self m)
    by (rewrite fill_unset_spec, H; reflexivity).
  rewrite IH; [exact Hs|].
  unfold getattr. rewrite Hs. exact H.
Qed.

Lemma BaseParameter_inherit_err (ps : list obj) (e : exn) :
  fold_left BaseParameter_inherit_step ps (Err e) = Err e.
Proof. induction ps; simpl; auto. Qed.

Lemma Body_inherit_err (ps : list obj) (e : exn) :
  fold_left Body_inherit_step ps (Err e) = Err e.
Proof. induction ps; simpl; auto. Qed.

Lemma name_not_inherited : existsb (String.eqb "name") NAMED_PARAMS = false.
Proof. reflexivity. Qed.

Lemma mime_type_not_inherited : existsb (String.eqb "mime_type") body_params = false.
Proof. reflexivity. Qed.

(** A loop whose body, on a state satisfying [P], either applies [f] or
    skips according to [g], is the plain loop of [f] over [filter g]. *)
Lemma fold_step_filter {A : Type} (step : res A -> obj -> res A)
    (g : obj -> bool) (f : A -> obj -> A) (P : A -> Prop) :
  (forall s p, P s -> step (Ok s) p = Ok (if g p then f s p else s)) ->
  (forall s p, P s -> P (f s p)) ->
  forall ps s, P s -> fold_left step ps (Ok s) = Ok (fold_left f (filter g ps) s).
Proof.
  intros Hstep Hf ps. induction ps as [|p ps IH]; intros s Hs; [reflexivity|].
  cbn [fold_left filter]. rewrite (Hstep s p Hs).
  destruct (g p); cbn [fold_left]; apply IH; auto.
Qed.

Lemma BaseParameter_inherit_step_ok (s p : obj) (nm : pyval) :
  getattr_opt s "name" = Some nm ->
  BaseParameter_inherit_step (Ok s) p =
  Ok (if py_eq (param_ident p) nm then fill_unset s p NAMED_PARAMS else s).
Proof.
  intro Hn. unfold BaseParameter_inherit_step. cbn [bind]. rewrite Hn.
  destruct (py_eq (param_ident p) nm); reflexivity.
Qed.

Lemma fill_unset_keeps_name (s p : obj) (nm : pyval) :
  getattr_opt s "name" = Some nm ->
  getattr_opt (fill_unset s p NAMED_PARAMS) "name" = Some nm.
Proof. intro Hn. rewrite fill_unset_spec, name_not_inherited. exact Hn. Qed.

(** With a [name], the [BaseParameter] merge is the unfiltered loop run
    on the ancestors whose identity equals that name. *)
Lemma BaseParameter_inherit_filter (ps : list obj) (self : obj) (nm : pyval) :
  getattr_opt self "name" = Some nm ->
  BaseParameter_inherit_type_properties self ps =
  Ok (fold_left (fun s p => fill_unset s p NAMED_PARAMS)
        (filter (fun p => py_eq (param_ident p) nm) ps) self).
Proof.
  apply (fold_step_filter BaseParameter_inherit_step
           (fun p => py_eq (param_ident p) nm)
           (fun s p => fill_unset s p NAMED_PARAMS)
           (fun s => getattr_opt s "name" = Some nm)).
  - intros s p Hs. apply BaseParameter_inherit_step_ok. exact Hs.
  - intros s p Hs. apply fill_unset_keeps_name. exact Hs.
Qed.

Lemma Body_inherit_step_ok (s p : obj) (sm : pyval) :
  getattr_opt s "mime_type" = Some sm ->
  getattr_opt p "mime_type" <> None ->
  Body_inherit_step (Ok s) p =
  Ok (if py_eq (getattr p "mime_type" VNone) sm
      then fill_unset s p body_params else s).
Proof.
  intros Hm Hp. unfold Body_inherit_step. cbn [bind]. unfold getattr.
  destruct (getattr_opt p "mime_type") as [pm|]; [|contradiction].
  rewrite Hm. destruct (py_eq pm sm); reflexivity.
Qed.

Lemma fill_unset_keeps_mime_type (s p : obj) (sm : pyval) :
  getattr_opt s "mime_type" = Some sm ->
  getattr_opt (fill_unset s p body_params) "mime_type" = Some sm.
Proof. intro Hm. rewrite fill_unset_spec, mime_type_not_inherited. exact Hm. Qed.

(** With a [mime_type] on the record and on every ancestor, the [Body]
    merge is the unfiltered loop on the ancestors of the same MIME type. *)
Lemma Body_inherit_filter (ps : list obj) (self : obj) (sm : pyval) :
  getattr_opt self "mime_type" = Some sm ->
  Forall (fun p => getattr_opt p "mime_type" <> None) ps ->
  Body_inherit_type_properties self ps =
  Ok (fold_left (fun s p => fill_unset s p body_params)
        (filter (fun p => py_eq (getattr p "mime_type" VNone) sm) ps) self).
Proof.
  intros Hm Hall. unfold Body_inherit_type_properties.
  revert self Hm. induction Hall as [|p ps Hp Hps IH]; intros self Hm; [reflexivity|].
  cbn [fold_left filter]. rewrite (Body_inherit_step_ok self p sm Hm Hp).
  destruct (py_eq (getattr p "mime_type" VNone) sm); cbn [fold_left]; apply IH;
    [apply fill_unset_keeps_mime_type|]; exact Hm.
Qed.

(** Any run of the [BaseParameter] or [Body] loop that returns a record
    has only filled attributes of [ns] that were unset. *)
Lemma BaseParameter_inherit_frame (ps : list obj) (self r : obj) (m : string) :
  BaseParameter_inherit_type_properties self ps = Ok r ->
  existsb (String.eqb m) NAMED_PARAMS && is_none (getattr self m VNone) = false ->
  getattr_opt r m = getattr_opt self m.
Proof.
  unfold BaseParameter_inherit_type_properties.
  revert self. induction ps as [|p ps IH]; intros self Hr H;
    cbn [fold_left] in Hr.
  - injection Hr as <-. reflexivity.
  - unfold BaseParameter_inherit_step at 2 in Hr. cbn [bind] in Hr.
    destruct (getattr_opt self "name") as [nm|].
    + assert (Hs : getattr_opt (fill_unset self p NAMED_PARAMS) m = getattr_opt self m)
        by (rewrite fill_unset_spec, H; reflexivity).
      destruct (py_eq (param_ident p) nm).
      * rewrite (IH _ Hr); [exact Hs|]. unfold getattr. rewrite Hs. exact H.
      * exact (IH _ Hr H).
    + rewrite BaseParameter_inherit_err in Hr. discriminate.
Qed.

Lemma Body_inherit_frame (ps : list obj) (self r : obj) (m : string) :
  Body_inherit_type_properties self ps = Ok r ->
  existsb (String.eqb m) body_params && is_none (getattr self m VNone) = false ->
  getattr_opt r m = getattr_opt self m.
Proof.
  unfold Body_inherit_type_properties.
  revert self. induction ps as [|p ps IH]; intros self Hr H;
    cbn [fold_left] in Hr.
  - injection Hr as <-. reflexivity.
  - unfold Body_inherit_step at 2 in Hr. cbn [bind] in Hr.
    destruct (getattr_opt p "mime_type"), (getattr_opt self "mime_type");
      try (rewrite Body_inherit_err in Hr; discriminate).
    assert (Hs : getattr_opt (fill_unset self p body_params) m = getattr_opt self m)
      by (rewrite fill_unset_spec, H; reflexivity).
    destruct (negb (py_eq _ _)).
    + exact (IH _ Hr H).
    + rewrite (IH _ Hr); [exact Hs|]. unfold getattr. rewrite Hs. exact H.
Qed.

Lemma set_is_not_none (o : obj) (n : string) (v : pyval) :
  getattr_opt o n = Some v -> v <> VNone -> is_none (getattr o n VNone) = false.
Proof.
  intros Hv Hn. unfold getattr. rewrite Hv. destruct v; try reflexivity. contradiction.
Qed.

Lemma In_existsb (n : string) (ns : list string) :
  In n ns -> existsb (String.eqb n) ns = true.
Proof.
  intro H. apply existsb_exists. exists n. split; [exact H|]. apply String.eqb_refl.
Qed.

Lemma notIn_existsb (n : string) (ns : list string) :
  ~ In n ns -> existsb (String.eqb n) ns = false.
Proof.
  intro H. destruct (existsb (String.eqb n) ns) eqn:E; [|reflexivity].
  apply existsb_exists in E as [m [Hm Em]]. apply String.eqb_eq in Em. subst m.
  contradiction.
Qed.

(** ** The merges: locality, nearest match, identity rules *)

(** C1: the inheritance merges never overwrite a locally set value.
    For every record [self], every ancestor list [ps] and every attribute
    [n] (in particular each inheritable one), if [self.n] is set to a
    value other than [None] before the merge, it has that same value
    after [_inherit_type_properties] of [BaseParameter] (and so of
    [URIParameter], [QueryParameter], [FormParameter]), [Header],
    [Response] and [Body] has run. *)
Theorem merge_keeps_local_values (self : obj) (ps : list obj) (n : string) (v : pyval) :
  getattr_opt self n = Some v -> v <> VNone ->
  (forall r, BaseParameter_inherit_type_properties self ps = Ok r ->
             getattr_opt r n = Some v) /\
  getattr_opt (Header_inherit_type_properties self ps) n = Some v /\
  getattr_opt (Response_inherit_type_properties self ps) n = Some v /\
  (forall r, Body_inherit_type_properties self ps = Ok r ->
             getattr_opt r n = Some v).
Proof.
  intros Hv Hnn. pose proof (set_is_not_none self n v Hv Hnn) as Hs.
  repeat split.
  - intros r Hr. rewrite (BaseParameter_inherit_frame ps self r n Hr); [exact Hv|].
    rewrite Hs, andb_false_r. reflexivity.
  - unfold Header_inherit_type_properties. rewrite fold_fill_frame; [exact Hv|].
    rewrite Hs, andb_false_r. reflexivity.
  - unfold Response_inherit_type_properties. rewrite fold_fill_frame; [exact Hv|].
    rewrite Hs, andb_false_r. reflexivity.
  - intros r Hr. rewrite (Body_inherit_frame ps self r n Hr); [exact Hv|].
    rewrite Hs, andb_false_r. reflexivity.
Qed.

Lemma BaseParameter_inherit_unset (self : obj) (ps : list obj) (nm : pyval) (n : string) :
  getattr_opt self "name" = Some nm ->
  In n NAMED_PARAMS ->
  getattr self n VNone = VNone ->
  exists self',
    BaseParameter_inherit_type_properties self ps = Ok self' /\
    getattr self' n VNone =
    first_set n (filter (fun p => py_eq (param_ident p) nm) ps).
Proof.
  intros Hn Hin Hu. rewrite (BaseParameter_inherit_filter ps self nm Hn).
  eexists. split; [reflexivity|].
  rewrite fold_fill_getattr, (In_existsb n _ Hin), Hu. reflexivity.
Qed.

(** C2: each unset attribute of a named parameter is filled independently
    from the nearest matching ancestor.  For a record with a [name] and an
    unset attribute [n] of [NAMED_PARAMS], the merge succeeds and [n]
    becomes the value of [n] in the first ancestor whose identity
    ([param_ident], its [name] when it has one) equals the record's name
    and whose [n] is not [None]; it stays [None] when there is none.  In
    particular, with ancestors [[a1; a2]] where [a1.name != r.name],
    [a2.name == r.name] and [a2.type == "integer"], an unset [r.type]
    becomes ["integer"]. *)
Theorem merge_fills_from_nearest_match :
  (forall (self : obj) (ps : list obj) (nm : pyval) (n : string),
     getattr_opt self "name" = Some nm ->
     In n NAMED_PARAMS ->
     getattr self n VNone = VNone ->
     exists self',
       BaseParameter_inherit_type_properties self ps = Ok self' /\
       getattr self' n VNone =
       first_set n (filter (fun p => py_eq (param_ident p) nm) ps)) /\
  (forall (r a1 a2 : obj) (nm x1 x2 : pyval),
     getattr_opt r "name" = Some nm ->
     getattr r "type" VNone = VNone ->
     getattr_opt a1 "name" = Some x1 -> py_eq x1 nm = false ->
     getattr_opt a2 "name" = Some x2 -> py_eq x2 nm = true ->
     getattr_opt a2 "type" = Some (VStr "integer") ->
     exists r',
       BaseParameter_inherit_type_properties r [a1; a2] = Ok r' /\
       getattr r' "type" VNone = VStr "integer").
Proof.
  split.
  - exact BaseParameter_inherit_unset.
  - intros r a1 a2 nm x1 x2 Hr Ht H1 E1 H2 E2 Ht2.
    destruct (BaseParameter_inherit_unset r [a1; a2] nm "type" Hr) as [r' [Hm Hv]];
      [simpl; tauto | exact Ht |].
    exists r'. split; [exact Hm|]. rewrite Hv.
    assert (I1 : param_ident a1 = x1) by (unfold param_ident, getattr; rewrite H1; reflexivity).
    assert (I2 : param_ident a2 = x2) by (unfold param_ident, getattr; rewrite H2; reflexivity).
    cbn [filter]. rewrite I1, E1, I2, E2.
    cbn [first_set]. unfold getattr. rewrite Ht2. reflexivity.
Qed.

(** C3: the identity rule differs by kind.  [Header]'s merge consults
    every ancestor whatever its name: each unset attribute of
    [NAMED_PARAMS ++ ["method"]] takes the first non-[None] value along
    the whole ancestor list, and no other attribute changes.  [Body]'s
    merge (on a record and ancestors carrying a [mime_type]) consults only
    the ancestors whose [mime_type] equals the record's, fills exactly
    [schema], [example] and [form_params] that way, and changes no other
    attribute. *)
Theorem merge_identity_rule_by_kind :
  (forall (self : obj) (ps : list obj) (n : string),
     In n (NAMED_PARAMS ++ ["method"]) ->
     getattr (Header_inherit_type_properties self ps) n VNone =
     if is_none (getattr self n VNone) then first_set n ps
     else getattr self n VNone) /\
  (forall (self : obj) (ps : list obj) (n : string),
     ~ In n (NAMED_PARAMS ++ ["method"]) ->
     getattr_opt (Header_inherit_type_properties self ps) n = getattr_opt self n) /\
  (forall (self : obj) (ps : list obj) (sm : pyval),
     getattr_opt self "mime_type" = Some sm ->
     Forall (fun p => getattr_opt p "mime_type" <> None) ps ->
     exists self',
       Body_inherit_type_properties self ps = Ok self' /\
       (forall n, In n body_params ->
          getattr self' n VNone =
          if is_none (getattr self n VNone)
          then first_set n (filter (fun p => py_eq (getattr p "mime_type" VNone) sm) ps)
          else getattr self n VNone) /\
       (forall n, ~ In n body_params -> getattr_opt self' n = getattr_opt self n)).
Proof.
  split; [|split].
  - intros self ps n Hin. unfold Header_inherit_type_properties.
    rewrite fold_fill_getattr, (In_existsb n _ Hin). reflexivity.
  - intros self ps n Hin. unfold Header_inherit_type_properties.
    apply fold_fill_frame. rewrite (notIn_existsb n _ Hin). reflexivity.
  - intros self ps sm Hm Hall. rewrite (Body_inherit_filter ps self sm Hm Hall).
    eexists. split; [reflexivity|]. split.
    + intros n Hin. rewrite fold_fill_getattr, (In_existsb n _ Hin). reflexivity.
    + intros n Hin. apply fold_fill_frame. rewrite (notIn_existsb n _ Hin). reflexivity.
Qed.

(** ** The stable sort *)

Section StableSort.
Local Open Scope list_scope.
Context {A : Type} (le : A -> A -> bool).
Hypothesis le_total : forall x y, le x y = false -> le y x = true.
Hypothesis le_trans : forall x y z, le x y = true -> le y z = true -> le x z = true.

(** Equivalent keys: neither is greater. *)
Definition equiv (k x : A) : bool := le x k && le k x.

Lemma insert_by_perm (x : A) (ys : list A) : Permutation (x :: ys) (insert_by le x ys).
Proof.
  induction ys as [|y ys IH]; simpl; [reflexivity|].
  destruct (le y x); [|reflexivity].
  rewrite perm_swap. constructor. exact IH.
Qed.

Lemma insert_by_sorted (x : A) (ys : list A) :
  Sorted (fun a b => le a b = true) ys ->
  Sorted (fun a b => le a b = true) (insert_by le x ys).
Proof.
  induction ys as [|y ys IH]; intro Hs; simpl; [repeat constructor|].
  destruct (le y x) eqn:Eyx.
  - apply Sorted_inv in Hs as [Hs Hh]. constructor; [exact (IH Hs)|].
    destruct ys as [|z ys]; simpl; [constructor; exact Eyx|].
    apply HdRel_inv in Hh.
    destruct (le z x); constructor; assumption.
  - constructor; [exact Hs|]. constructor. apply le_total. exact Eyx.
Qed.

Lemma sort_by_sorted_perm (xs acc : list A) :
  Sorted (fun a b => le a b = true) acc ->
  Sorted (fun a b => le a b = true)
    (fold_left (fun acc x => insert_by le x acc) xs acc) /\
  Permutation (acc ++ xs) (fold_left (fun acc x => insert_by le x acc) xs acc).
Proof.
  revert acc. induction xs as [|x xs IH]; intros acc Hs; simpl.
  - rewrite app_nil_r. split; [exact Hs | reflexivity].
  - destruct (IH (insert_by le x acc) (insert_by_sorted x acc Hs)) as [H1 H2].
    split; [exact H1|]. rewrite <- H2.
    rewrite <- (insert_by_perm x acc). simpl. symmetry. apply Permutation_middle.
Qed.

Lemma filter_all_false (f : A -> bool) (l : list A) :
  (forall z, In z l -> f z = false) -> filter f l = [].
Proof.
  induction l as [|z l IH]; intro H; simpl; [reflexivity|].
  rewrite (H z (or_introl eq_refl)). apply IH. intros w Hw. apply H. right. exact Hw.
Qed.

Lemma filter_cons_eq (f : A -> bool) (a : A) (l : list A) :
  filter f (a :: l) = if f a then a :: filter f l else filter f l.
Proof. reflexivity. Qed.

Lemma insert_by_filter (k x : A) (ys : list A) :
  StronglySorted (fun a b => le a b = true) ys ->
  filter (equiv k) (insert_by le x ys) =
  filter (equiv k) ys ++ (if equiv k x then [x] else []).
Proof.
  induction ys as [|y ys IH]; intro Hs.
  - simpl. destruct (equiv k x); reflexivity.
  - apply StronglySorted_inv in Hs as [Hs Hall].
    cbn [insert_by]. destruct (le y x) eqn:Eyx.
    + rewrite !filter_cons_eq, (IH Hs). destruct (equiv k y); reflexivity.
    + rewrite (filter_cons_eq (equiv k) x (y :: ys)).
      destruct (equiv k x) eqn:Ex.
      * assert (Hnone : forall z, In z (y :: ys) -> equiv k z = false).
        { intros z Hz. destruct (equiv k z) eqn:Ez; [|reflexivity].
          exfalso. unfold equiv in Ex, Ez.
          apply andb_prop in Ex as [Ex1 Ex2]. apply andb_prop in Ez as [Ez1 Ez2].
          assert (Hyz : le y z = true).
          { destruct Hz as [<-|Hz].
            - destruct (le y y) eqn:Eyy; [reflexivity|].
              pose proof (le_total y y Eyy). congruence.
            - rewrite Forall_forall in Hall. exact (Hall z Hz). }
          assert (le y x = true) by eauto. congruence. }
        rewrite (filter_all_false (equiv k) (y :: ys) Hnone). reflexivity.
      * rewrite app_nil_r. reflexivity.
Qed.

Lemma sort_by_stable (k : A) (xs acc : list A) :
  Sorted (fun a b => le a b = true) acc ->
  filter (equiv k) (fold_left (fun acc x => insert_by le x acc) xs acc) =
  filter (equiv k) acc ++ filter (equiv k) xs.
Proof.
  revert acc. induction xs as [|x xs IH]; intros acc Hs; simpl.
  - rewrite app_nil_r. reflexivity.
  - rewrite (IH _ (insert_by_sorted x acc Hs)).
    rewrite insert_by_filter by (apply Sorted_StronglySorted; [exact le_trans|exact Hs]).
    rewrite <- app_assoc. destruct (equiv k x); reflexivity.
Qed.
End StableSort.

Lemma string_compare_not_gt_trans (s1 s2 s3 : string) :
  String.compare s1 s2 <> Gt -> String.compare s2 s3 <> Gt ->
  String.compare s1 s3 <> Gt.
Proof.
  revert s2 s3. induction s1 as [|a s1 IH]; intros [|b s2] [|c s3]; simpl;
    try congruence.
  unfold Ascii.compare.
  destruct (N.compare_spec (N_of_ascii a) (N_of_ascii b));
  destruct (N.compare_spec (N_of_ascii b) (N_of_ascii c));
  destruct (N.compare_spec (N_of_ascii a) (N_of_ascii c));
  try congruence; try lia; eauto.
Qed.

Lemma string_leb_trans (s1 s2 s3 : string) :
  String.leb s1 s2 = true -> String.leb s2 s3 = true -> String.leb s1 s3 = true.
Proof.
  unfold String.leb. intros H1 H2.
  pose proof (string_compare_not_gt_trans s1 s2 s3) as H.
  destruct (String.compare s1 s2), (String.compare s2 s3), (String.compare s1 s3);
    try discriminate; try reflexivity; exfalso; apply H; congruence.
Qed.

Lemma key_le_total (a b : sort_key) : key_le a b = false -> key_le b a = true.
Proof.
  destruct a as [x|s], b as [y|t]; simpl; intro H; try discriminate; try reflexivity.
  - apply Z.leb_gt in H. apply Z.leb_le. lia.
  - destruct (String.leb_total s t); congruence.
Qed.

Lemma key_le_trans (a b c : sort_key) :
  key_le a b = true -> key_le b c = true -> key_le a c = true.
Proof.
  destruct a as [x|s], b as [y|t], c as [z|u]; simpl; intros H1 H2;
    try discriminate; try reflexivity.
  - apply Z.leb_le in H1, H2. apply Z.leb_le. lia.
  - exact (string_leb_trans s t u H1 H2).
Qed.

Lemma code_le_total (a b : pyval) : code_le a b = false -> code_le b a = true.
Proof. unfold code_le. apply key_le_total. Qed.

Lemma code_le_trans (a b c : pyval) :
  code_le a b = true -> code_le b c = true -> code_le a c = true.
Proof. unfold code_le. apply key_le_trans. Qed.

(** ** Normalisation *)

Lemma attrs_new_values (E : env) (fields : list field) (kws : list (string * pyval))
    (inst : obj) :
  attrs_new E fields kws = Ok inst ->
  forall n v, assoc kws n = Some v -> In n (map fname fields) ->
  getattr_opt inst n = Some v.
Proof.
  unfold attrs_new. destruct (forallb _ kws); [|discriminate].
  destruct (mapM (field_value kws) fields) as [vals|] eqn:Hm; [|discriminate].
  cbn [bind]. destruct (run_validators E vals fields); [|discriminate].
  intro Hi. injection Hi as <-.
  revert vals Hm. induction fields as [|f fs IH]; intros vals Hm n v Hn Hin;
    [contradiction|].
  cbn [mapM] in Hm.
  destruct (field_value kws f) as [[k w]|] eqn:Hf; [|discriminate]. cbn [bind] in Hm.
  destruct (mapM (field_value kws) fs) as [ws|]; [|discriminate].
  injection Hm as <-. cbn [getattr_opt].
  unfold field_value in Hf.
  destruct (String.eqb (fname f) n) eqn:E1.
  - apply String.eqb_eq in E1. subst n. rewrite Hn in Hf. injection Hf as <- <-.
    rewrite String.eqb_refl. reflexivity.
  - assert (Hin' : In n (map fname fs)).
    { destruct Hin as [Hin|Hin]; [|exact Hin].
      subst n. rewrite String.eqb_refl in E1. discriminate. }
    destruct (assoc kws (fname f)), (fdefault f); try discriminate;
      injection Hf as <- <-; rewrite E1; exact (IH ws eq_refl n v Hn Hin').
Qed.

Lemma get_default (data item default : pyval) :
  (forall kvs, data = VDict kvs -> dict_get kvs item = None) ->
  _get data item default = default.
Proof.
  intro H. destruct data as [| | | | | kvs | |]; try reflexivity.
  unfold _get. rewrite (H kvs eq_refl). reflexivity.
Qed.

Lemma BaseParameter_init_raises (E : env) (name data config errors kwargs : pyval) :
  BaseParameter_init E BaseParameter name data config errors kwargs = Err TypeError.
Proof. reflexivity. Qed.

Lemma BaseParameter_init_fields (E : env) (cls : param_cls)
    (name data config errors kwargs r : pyval) :
  BaseParameter_init E cls name data config errors kwargs = Ok r ->
  exists inst, r = VObj (cls_name cls) inst /\
    forall n v, assoc (init_arguments cls name data config errors kwargs) n = Some v ->
      In n (map fname (cls_fields cls)) -> getattr_opt inst n = Some v.
Proof.
  unfold BaseParameter_init.
  destruct (attrs_new E (cls_fields cls) _) as [inst|] eqn:Ha; [|discriminate].
  intro Hr. injection Hr as <-. exists inst. split; [reflexivity|].
  exact (attrs_new_values E _ _ inst Ha).
Qed.

(** C4: required-ness defaults per kind.  When the raw declaration has
    no [required] key (it is [None], not a mapping, or a mapping without
    that key), a record produced by [init] has [required == True] for
    [URIParameter] and [required == False] for [QueryParameter],
    [FormParameter] and [Header] ([BaseParameter] itself produces no
    record: its [init] raises [TypeError]). *)
Theorem init_default_required (E : env) (cls : param_cls)
    (name data config errors kwargs r : pyval) :
  (forall kvs, data = VDict kvs -> dict_get kvs (VStr "required") = None) ->
  BaseParameter_init E cls name data config errors kwargs = Ok r ->
  exists inst, r = VObj (cls_name cls) inst /\
    getattr_opt inst "required" =
      Some (VBool (match cls with URIParameter => true | _ => false end)).
Proof.
  intros Hd Hr.
  destruct cls;
    [rewrite BaseParameter_init_raises in Hr; discriminate| | | |];
  destruct (BaseParameter_init_fields E _ _ _ _ _ _ _ Hr) as [inst [-> Hv]];
  exists inst; split; try reflexivity;
  apply Hv; try (simpl; tauto);
  unfold init_arguments, init_required; cbn [assoc String.eqb];
  rewrite (get_default _ _ _ Hd); reflexivity.
Qed.

(** C5: the empty mapping.  [BaseParameter.init_list] (whatever the
    class) returns [None] on [{}], but [Body.init_list] and
    [Response.init_list] return the empty list [[]], not [None]. *)
Theorem init_list_empty_mapping (E : env) (cls : param_cls) (config errors kwargs : pyval) :
  BaseParameter_init_list E cls (VDict []) config errors kwargs = Ok VNone /\
  Body_init_list E (VDict []) config errors kwargs = Ok (VList []) /\
  Response_init_list E (VDict []) config errors kwargs = Ok (VList []).
Proof. repeat split. Qed.

Lemma Body_init_fields (E : env) (name data config errors kwargs r : pyval) :
  Body_init E name data config errors kwargs = Ok r ->
  exists inst schema example, r = VObj "Body" inst /\
    forall n v, assoc (Body_arguments name data schema example config errors) n = Some v ->
      In n (map fname Body_fields) -> getattr_opt inst n = Some v.
Proof.
  unfold Body_init.
  destruct (load_schema E _) as [schema|]; [|discriminate]. cbn [bind].
  destruct (load_schema E _) as [example|]; [|discriminate]. cbn [bind].
  destruct (attrs_new E Body_fields _) as [inst|] eqn:Ha; [|discriminate].
  intro Hr. injection Hr as <-. exists inst, schema, example. split; [reflexivity|].
  exact (attrs_new_values E _ _ inst Ha).
Qed.

Lemma Response_init_fields (E : env) (name data config errors kwargs r : pyval) :
  Response_init E name data config errors kwargs = Ok r ->
  exists inst headers body, r = VObj "Response" inst /\
    forall n v, assoc (Response_arguments name data headers body config errors) n = Some v ->
      In n (map fname Response_fields) -> getattr_opt inst n = Some v.
Proof.
  unfold Response_init. destruct data; try discriminate.
  destruct (BaseParameter_init_list E Header _ _ _ _) as [headers|]; [|discriminate].
  cbn [bind].
  destruct (Body_init_list E _ _ _ _) as [body|]; [|discriminate]. cbn [bind].
  destruct (attrs_new E Response_fields _) as [inst|] eqn:Ha; [|discriminate].
  intro Hr. injection Hr as <-. exists inst, headers, body. split; [reflexivity|].
  exact (attrs_new_values E _ _ inst Ha).
Qed.

Lemma Response_init_code (E : env) (name data config errors kwargs r : pyval) :
  Response_init E name data config errors kwargs = Ok r -> code_of r = name.
Proof.
  intro Hr. destruct (Response_init_fields E _ _ _ _ _ _ Hr) as [inst [h [b [-> Hv]]]].
  unfold code_of, getattr. rewrite (Hv "code" name); [reflexivity|reflexivity|].
  simpl. tauto.
Qed.

Lemma Response_init_all_codes (E : env) (config errors kwargs : pyval)
    (kvs : list (pyval * pyval)) (rs0 : list pyval) :
  mapM (fun kv => Response_init E (fst kv) (snd kv) config errors kwargs) kvs = Ok rs0 ->
  map code_of rs0 = map fst kvs.
Proof.
  revert rs0. induction kvs as [|kv kvs IH]; intros rs0 H; cbn [mapM] in H.
  - injection H as <-. reflexivity.
  - destruct (Response_init E (fst kv) (snd kv) config errors kwargs) as [r|] eqn:Hr;
      [|discriminate]. cbn [bind] in H.
    destruct (mapM _ kvs) as [rs|] eqn:Hrs; [|discriminate].
    injection H as <-. cbn [map]. rewrite (Response_init_code E _ _ _ _ _ _ Hr), (IH rs eq_refl).
    reflexivity.
Qed.

Lemma Response_init_list_spec (E : env) (data config errors kwargs v : pyval) :
  Response_init_list E data config errors kwargs = Ok v ->
  exists kvs rs0,
    data = VDict kvs /\
    mapM (fun kv => Response_init E (fst kv) (snd kv) config errors kwargs) kvs = Ok rs0 /\
    v = VList (sort_by code_le rs0).
Proof.
  unfold Response_init_list. destruct data as [| | | | | kvs | |]; try discriminate.
  destruct (mapM _ kvs) as [rs0|] eqn:Hm; [|discriminate]. cbn [bind].
  unfold sorted_by_code. destruct (keys_comparable rs0); [|discriminate]. cbn [bind].
  intro Hv. injection Hv as <-. exists kvs, rs0. auto.
Qed.

(** C6: [Response.init_list] returns the normalised responses in
    ascending order of their [code] (the order of Python's [<] on
    numbers, or on strings when all codes are strings), as a permutation
    of the responses in declaration order, with equal codes kept in
    declaration order (for every [k], the responses whose code is
    equivalent to [k]'s come out in their input order).  In particular
    codes [404], [200], [500] come out as [200], [404], [500]. *)
Theorem response_list_sorted_by_code :
  (forall (E : env) (data config errors kwargs : pyval) (rs : list pyval),
     Response_init_list E data config errors kwargs = Ok (VList rs) ->
     exists kvs rs0,
       data = VDict kvs /\
       mapM (fun kv => Response_init E (fst kv) (snd kv) config errors kwargs) kvs = Ok rs0 /\
       map code_of rs0 = map fst kvs /\
       Permutation rs0 rs /\
       Sorted (fun a b => code_le a b = true) rs /\
       (forall k, filter (equiv code_le k) rs = filter (equiv code_le k) rs0)) /\
  (forall (E : env) (d1 d2 d3 config errors kwargs : pyval) (rs : list pyval),
     Response_init_list E (VDict [(VInt 404, d1); (VInt 200, d2); (VInt 500, d3)])
       config errors kwargs = Ok (VList rs) ->
     map code_of rs = [VInt 200; VInt 404; VInt 500]).
Proof.
  split.
  - intros E data config errors kwargs rs H.
    destruct (Response_init_list_spec E _ _ _ _ _ H) as [kvs [rs0 [Hd [Hm Hv]]]].
    injection Hv as Hv. subst rs.
    exists kvs, rs0. split; [exact Hd|]. split; [exact Hm|].
    split; [exact (Response_init_all_codes E _ _ _ _ _ Hm)|].
    destruct (sort_by_sorted_perm code_le code_le_total rs0 [] (Sorted_nil _)) as [Hs Hp].
    split; [exact Hp|]. split; [exact Hs|].
    intro k. unfold sort_by.
    rewrite (sort_by_stable code_le code_le_total code_le_trans k rs0 [] (Sorted_nil _)).
    reflexivity.
  - intros E d1 d2 d3 config errors kwargs rs H.
    destruct (Response_init_list_spec E _ _ _ _ _ H) as [kvs [rs0 [Hd [Hm Hv]]]].
    injection Hd as <-. injection Hv as Hv. subst rs.
    pose proof (Response_init_all_codes E _ _ _ _ _ Hm) as Hc.
    destruct rs0 as [|r1 [|r2 [|r3 [|r4 rs0]]]]; try discriminate.
    cbn [map] in Hc. injection Hc as H1 H2 H3.
    unfold sort_by. cbn [fold_left insert_by].
    unfold code_le, code_key. do 4 (rewrite ?H1, ?H2, ?H3; cbn). rewrite ?H1, ?H2, ?H3. reflexivity.
Qed.

(** C7: normalisation keeps the raw declaration.  A record produced by
    [BaseParameter.init] (any named-parameter class) has [raw] equal to
    [{name: data}]; one produced by [Body.init] or [Response.init] has
    [raw] equal to the declaration [data] itself. *)
Theorem normalization_keeps_raw :
  (forall (E : env) (cls : param_cls) (name data config errors kwargs r : pyval),
     BaseParameter_init E cls name data config errors kwargs = Ok r ->
     exists inst, r = VObj (cls_name cls) inst /\
       getattr_opt inst "raw" = Some (VDict [(name, data)])) /\
  (forall (E : env) (name data config errors kwargs r : pyval),
     Body_init E name data config errors kwargs = Ok r ->
     exists inst, r = VObj "Body" inst /\ getattr_opt inst "raw" = Some data) /\
  (forall (E : env) (name data config errors kwargs r : pyval),
     Response_init E name data config errors kwargs = Ok r ->
     exists inst, r = VObj "Response" inst /\ getattr_opt inst "raw" = Some data).
Proof.
  split; [|split].
  - intros E cls name data config errors kwargs r Hr.
    destruct (BaseParameter_init_fields E _ _ _ _ _ _ _ Hr) as [inst [-> Hv]].
    exists inst. split; [reflexivity|]. apply Hv.
    + destruct cls; reflexivity.
    + destruct cls; simpl; tauto.
  - intros E name data config errors kwargs r Hr.
    destruct (Body_init_fields E _ _ _ _ _ _ Hr) as [inst [s [x [-> Hv]]]].
    exists inst. split; [reflexivity|]. apply Hv; [reflexivity|simpl; tauto].
  - intros E name data config errors kwargs r Hr.
    destruct (Response_init_fields E _ _ _ _ _ _ Hr) as [inst [h [b [-> Hv]]]].
    exists inst. split; [reflexivity|]. apply Hv; [reflexivity|simpl; tauto].
Qed.

(** C8 (does not hold of the code): the errors collection is not
    threaded through the nested calls.  A response declaring one header,
    normalised with the caller's errors list [VRef 7], keeps [VRef 7] as
    its own [errors], but the nested [Header] record carries the default
    list of [BaseParameter.init_list] ([VRef 1]), since [Response.init]
    calls [Header.init_list] without [errors].  Likewise
    [SecurityScheme.from_file] with a root whose [errors] is [VRef 7]
    produces a scheme with [errors = VRef 7] whose [describedBy] header
    carries [VRef 1]. *)
Theorem errors_not_threaded_to_nested_calls :
  (exists inst hinst,
     Response_init spec_env (VInt 200)
       (VDict [(VStr "headers", VDict [(VStr "X-Foo", VDict [])])])
       (VDict []) (VRef 7) (VDict []) = Ok (VObj "Response" inst) /\
     getattr_opt inst "errors" = Some (VRef 7) /\
     getattr_opt inst "headers" = Some (VList [VObj "Header" hinst]) /\
     getattr_opt hinst "errors" = Some BaseParameter_init_list_errors_default /\
     BaseParameter_init_list_errors_default <> VRef 7) /\
  (exists sinst hinst,
     SecurityScheme_from_file spec_env
       (VDict [(VStr "securitySchemes",
                VList [VDict [(VStr "oauth_2_0",
                               VDict [(VStr "describedBy",
                                       VDict [(VStr "headers",
                                               VDict [(VStr "Authorization", VDict [])])])])]])])
       [("config", VDict []); ("errors", VRef 7)]
     = Ok (VList [VObj "SecurityScheme" sinst]) /\
     getattr_opt sinst "errors" = Some (VRef 7) /\
     getattr_opt sinst "headers" = Some (VList [VObj "Header" hinst]) /\
     getattr_opt hinst "errors" = Some BaseParameter_init_list_errors_default /\
     BaseParameter_init_list_errors_default <> VRef 7).
Proof.
  split.
  - do 2 eexists. split; [vm_compute; reflexivity|].
    split; [reflexivity|]. split; [reflexivity|]. split; [reflexivity|]. discriminate.
  - do 2 eexists. split; [vm_compute; reflexivity|].
    split; [reflexivity|]. split; [reflexivity|]. split; [reflexivity|]. discriminate.
Qed.

(** C9: a missing or empty declaration is tolerated.  [_get data item
    default] returns [default] whenever [data] is not a mapping (in
    particular [None]) or has no key [item]; and under the validators
    (modelled from the spec), [init] of a concrete named-parameter kind
    applied to a [None] or [{}] declaration, with a mapping as [config],
    succeeds and gives a record with [type == "string"],
    [repeat == False], [display_name == name] and the optional fields
    [desc], [min_length], [max_length], [minimum], [maximum], [example],
    [default], [pattern] and [enum] unset.  ([BaseParameter] itself
    declares no [required] or [type] field, so its [init] raises
    [TypeError] on any input.) *)
Theorem init_tolerates_missing_declaration :
  (forall data item default : pyval,
     (forall kvs, data = VDict kvs -> dict_get kvs item = None) ->
     _get data item default = default) /\
  (forall (cls : param_cls) (name data errors kwargs : pyval)
          (kvs : list (pyval * pyval)),
     cls <> BaseParameter ->
     data = VNone \/ data = VDict [] ->
     exists inst,
       BaseParameter_init spec_env cls name data (VDict kvs) errors kwargs
         = Ok (VObj (cls_name cls) inst) /\
       getattr_opt inst "type" = Some (VStr "string") /\
       getattr_opt inst "repeat" = Some (VBool false) /\
       getattr_opt inst "display_name" = Some name /\
       Forall (fun n => getattr_opt inst n = Some VNone)
         ["desc"; "min_length"; "max_length"; "minimum"; "maximum";
          "example"; "default"; "pattern"; "enum"]).
Proof.
  split; [exact get_default|].
  intros cls name data errors kwargs kvs Hcls Hdata.
  destruct cls; [congruence| | | |];
    destruct Hdata as [-> | ->];
    (eexists; split; [reflexivity|]);
    repeat split; repeat constructor.
Qed.

(** C10: the [description] properties collapse a falsy [desc] to
    absence.  For a record whose [desc] attribute is [d], the
    [description] of [BaseParameter], [Header], [Response] and
    [SecurityScheme] is [None] exactly when [d] is falsy (an undeclared
    description is [None], and the empty string is falsy too), and
    otherwise a [Content] whose [raw] text is [d] itself. *)
Theorem description_collapses_falsy (self : obj) (d : pyval) :
  getattr_opt self "desc" = Some d ->
  py_truthy VNone = false /\ py_truthy (VStr "") = false /\
  (py_truthy d = false ->
     BaseParameter_description self = Ok None /\
     Header_description self = Ok None /\
     Response_description self = Ok None /\
     SecurityScheme_description self = Ok None) /\
  (py_truthy d = true ->
     exists c,
       BaseParameter_description self = Ok (Some c) /\
       Header_description self = Ok (Some c) /\
       Response_description self = Ok (Some c) /\
       SecurityScheme_description self = Ok (Some c) /\
       Content_raw c = d).
Proof.
  intro Hd.
  unfold BaseParameter_description, Header_description, Response_description,
    SecurityScheme_description.
  rewrite Hd.
  split; [reflexivity|]. split; [reflexivity|]. split.
  - intros Hf. rewrite Hf. auto.
  - intros Ht. rewrite Ht. exists (mk_Content d). auto.
Qed.

(** ** Instances on concrete records *)

Lemma merge_keeps_local_values_witness :
  exists r,
    BaseParameter_inherit_type_properties [("name", VStr "q"); ("type", VStr "string")]
      [[("name", VStr "q"); ("type", VStr "integer")]] = Ok r /\
    getattr_opt r "type" = Some (VStr "string").
Proof.
  pose proof (merge_keeps_local_values [("name", VStr "q"); ("type", VStr "string")]
                [[("name", VStr "q"); ("type", VStr "integer")]] "type" (VStr "string")
                eq_refl ltac:(discriminate)) as [HB _].
  eexists. split; [vm_compute; reflexivity|].
  apply HB. vm_compute. reflexivity.
Defined.

Lemma merge_fills_from_nearest_match_witness :
  (exists r',
     BaseParameter_inherit_type_properties [("name", VStr "id"); ("type", VNone)]
       [[("name", VStr "other"); ("type", VStr "number")];
        [("name", VStr "id"); ("type", VStr "integer")]] = Ok r' /\
     getattr r' "type" VNone = VStr "integer") /\
  (exists r',
     BaseParameter_inherit_type_properties [("name", VStr "id")]
       [[("name", VStr "other"); ("minimum", VInt 1)];
        [("name", VStr "id"); ("minimum", VInt 2)]] = Ok r' /\
     getattr r' "minimum" VNone =
     first_set "minimum"
       (filter (fun p => py_eq (param_ident p) (VStr "id"))
          [[("name", VStr "other"); ("minimum", VInt 1)];
           [("name", VStr "id"); ("minimum", VInt 2)]])).
Proof.
  split.
  - exact (proj2 merge_fills_from_nearest_match
             [("name", VStr "id"); ("type", VNone)]
             [("name", VStr "other"); ("type", VStr "number")]
             [("name", VStr "id"); ("type", VStr "integer")]
             (VStr "id") (VStr "other") (VStr "id")
             eq_refl eq_refl eq_refl eq_refl eq_refl eq_refl eq_refl).
  - exact (proj1 merge_fills_from_nearest_match [("name", VStr "id")]
             [[("name", VStr "other"); ("minimum", VInt 1)];
              [("name", VStr "id"); ("minimum", VInt 2)]]
             (VStr "id") "minimum" eq_refl ltac:(simpl; tauto) eq_refl).
Defined.

Lemma merge_identity_rule_by_kind_witness :
  exists self',
    Body_inherit_type_properties
      [("mime_type", VStr "application/json"); ("schema", VNone)]
      [[("mime_type", VStr "text/xml"); ("schema", VStr "s1")];
       [("mime_type", VStr "application/json"); ("schema", VStr "s2")]] = Ok self' /\
    getattr self' "schema" VNone = VStr "s2".
Proof.
  destruct (proj2 (proj2 merge_identity_rule_by_kind)
              [("mime_type", VStr "application/json"); ("schema", VNone)]
              [[("mime_type", VStr "text/xml"); ("schema", VStr "s1")];
               [("mime_type", VStr "application/json"); ("schema", VStr "s2")]]
              (VStr "application/json") eq_refl
              ltac:(repeat constructor; discriminate)) as [s' [Hok [Hin _]]].
  exists s'. split; [exact Hok|].
  rewrite (Hin "schema" ltac:(simpl; tauto)). vm_compute. reflexivity.
Defined.

Lemma init_default_required_witness :
  exists r,
    BaseParameter_init spec_env URIParameter (VStr "id") VNone (VDict []) (VRef 9)
      (VDict []) = Ok r /\
    exists inst, r = VObj "URIParameter" inst /\
      getattr_opt inst "required" = Some (VBool true).
Proof.
  eexists. split; [vm_compute; reflexivity|].
  match goal with
  | |- exists inst, ?r = _ /\ _ =>
      exact (init_default_required spec_env URIParameter (VStr "id") VNone (VDict [])
               (VRef 9) (VDict []) r (fun kvs H => ltac:(discriminate H))
               ltac:(vm_compute; reflexivity))
  end.
Defined.

Lemma response_list_sorted_by_code_witness :
  exists rs,
    Response_init_list spec_env
      (VDict [(VInt 404, VDict []); (VInt 200, VDict []); (VInt 500, VDict [])])
      (VDict []) (VRef 9) (VDict []) = Ok (VList rs) /\
    map code_of rs = [VInt 200; VInt 404; VInt 500].
Proof.
  eexists. split; [vm_compute; reflexivity|].
  apply (proj2 response_list_sorted_by_code spec_env (VDict []) (VDict []) (VDict [])
           (VDict []) (VRef 9) (VDict [])).
  vm_compute. reflexivity.
Defined.

Lemma normalization_keeps_raw_witness :
  exists r,
    BaseParameter_init spec_env QueryParameter (VStr "page")
      (VDict [(VStr "type", VStr "integer")]) (VDict []) (VRef 9) (VDict []) = Ok r /\
    exists inst, r = VObj "QueryParameter" inst /\
      getattr_opt inst "raw" =
        Some (VDict [(VStr "page", VDict [(VStr "type", VStr "integer")])]).
Proof.
  eexists. split; [vm_compute; reflexivity|].
  match goal with
  | |- exists inst, ?r = _ /\ _ =>
      exact (proj1 normalization_keeps_raw spec_env QueryParameter (VStr "page")
               (VDict [(VStr "type", VStr "integer")]) (VDict []) (VRef 9) (VDict []) r
               ltac:(vm_compute; reflexivity))
  end.
Defined.

Lemma init_tolerates_missing_declaration_witness :
  _get VNone (VStr "type") (VStr "string") = VStr "string" /\
  exists inst,
    BaseParameter_init spec_env Header (VStr "X-Foo") VNone (VDict []) (VRef 9)
      (VDict []) = Ok (VObj "Header" inst) /\
    getattr_opt inst "display_name" = Some (VStr "X-Foo").
Proof.
  split.
  - exact (proj1 init_tolerates_missing_declaration VNone (VStr "type") (VStr "string")
             (fun kvs H => ltac:(discriminate H))).
  - destruct (proj2 init_tolerates_missing_declaration Header (VStr "X-Foo") VNone
                (VRef 9) (VDict []) [] ltac:(discriminate) (or_introl eq_refl))
      as [inst [H1 [_ [_ [H4 _]]]]].
    exists inst. split; assumption.
Defined.

Lemma description_collapses_falsy_witness :
  BaseParameter_description [("desc", VStr "")] = Ok None /\
  exists c, Response_description [("desc", VStr "hi")] = Ok (Some c) /\
    Content_raw c = VStr "hi".
Proof.
  split.
  - exact (proj1 (proj1 (proj2 (proj2 (description_collapses_falsy [("desc", VStr "")]
                                          (VStr "") eq_refl))) eq_refl)).
  - destruct (proj2 (proj2 (proj2 (description_collapses_falsy [("desc", VStr "hi")]
                                     (VStr "hi") eq_refl))) eq_refl)
      as [c [_ [_ [H3 [_ H5]]]]].
    exists c. split; assumption.
Defined.

(** ** Further properties of the builders *)

Lemma mapM_Forall2 {A B : Type} (f : A -> res B) (xs : list A) (ys : list B) :
  mapM f xs = Ok ys -> Forall2 (fun x y => f x = Ok y) xs ys.
Proof.
  revert ys. induction xs as [|x xs IH]; intros ys H; cbn [mapM] in H.
  - injection H as <-. constructor.
  - destruct (f x) as [y|] eqn:Hf; [|discriminate]. cbn [bind] in H.
    destruct (mapM f xs) as [zs|]; [|discriminate]. injection H as <-.
    constructor; [exact Hf | exact (IH zs eq_refl)].
Qed.

Lemma attrs_new_keys (E : env) (fields : list field) (kws : list (string * pyval))
    (inst : obj) :
  attrs_new E fields kws = Ok inst -> map fst inst = map fname fields.
Proof.
  unfold attrs_new. destruct (forallb _ kws); [|discriminate].
  destruct (mapM (field_value kws) fields) as [vals|] eqn:Hm; [|discriminate].
  cbn [bind]. destruct (run_validators E vals fields); [|discriminate].
  intro Hi. injection Hi as <-.
  revert vals Hm. induction fields as [|f fs IH]; intros vals Hm; cbn [mapM] in Hm.
  - injection Hm as <-. reflexivity.
  - destruct (field_value kws f) as [[k w]|] eqn:Hf; [|discriminate]. cbn [bind] in Hm.
    destruct (mapM (field_value kws) fs) as [ws|]; [|discriminate].
    injection Hm as <-. cbn [map fst]. rewrite (IH ws eq_refl).
    unfold field_value in Hf.
    destruct (assoc kws (fname f)), (fdefault f); try discriminate;
      injection Hf as <- <-; reflexivity.
Qed.

(** A field no keyword sets takes its default. *)
Lemma attrs_new_default (E : env) (fields : list field) (kws : list (string * pyval))
    (inst : obj) (n : string) (f0 : field) (d : pyval) :
  attrs_new E fields kws = Ok inst ->
  find (fun f => String.eqb (fname f) n) fields = Some f0 ->
  fdefault f0 = Some d -> assoc kws n = None ->
  getattr_opt inst n = Some d.
Proof.
  unfold attrs_new. destruct (forallb _ kws); [|discriminate].
  destruct (mapM (field_value kws) fields) as [vals|] eqn:Hm; [|discriminate].
  cbn [bind]. destruct (run_validators E vals fields); [|discriminate].
  intros Hi Hfind Hd Hn. injection Hi as <-.
  revert vals Hm. induction fields as [|f fs IH]; intros vals Hm;
    [discriminate|].
  cbn [mapM] in Hm.
  destruct (field_value kws f) as [[k w]|] eqn:Hf; [|discriminate]. cbn [bind] in Hm.
  destruct (mapM (field_value kws) fs) as [ws|]; [|discriminate].
  injection Hm as <-. cbn [getattr_opt]. cbn [find] in Hfind.
  unfold field_value in Hf.
  destruct (String.eqb (fname f) n) eqn:E1.
  - injection Hfind as ->. apply String.eqb_eq in E1. subst n.
    rewrite Hn, Hd in Hf. injection Hf as <- <-. rewrite String.eqb_refl. reflexivity.
  - destruct (assoc kws (fname f)), (fdefault f); try discriminate;
      injection Hf as <- <-; rewrite E1; exact (IH Hfind ws eq_refl).
Qed.

Lemma getattr_opt_notin (o : obj) (n : string) :
  ~ In n (map fst o) -> getattr_opt o n = None.
Proof.
  induction o as [|[k v] o IH]; intro H; [reflexivity|]. cbn [getattr_opt].
  destruct (String.eqb k n) eqn:E.
  - apply String.eqb_eq in E. subst k. exfalso. apply H. left. reflexivity.
  - apply IH. intro Hin. apply H. right. exact Hin.
Qed.

Lemma BaseParameter_init_list_spec (E : env) (cls : param_cls)
    (kvs : list (pyval * pyval)) (config errors kwargs v : pyval) :
  BaseParameter_init_list E cls (VDict kvs) config errors kwargs = Ok v ->
  exists objs,
    Forall2 (fun kv o => BaseParameter_init E cls (fst kv) (snd kv) config errors kwargs
                         = Ok o) kvs objs /\
    v = match objs with [] => VNone | _ => VList objs end.
Proof.
  unfold BaseParameter_init_list.
  destruct (mapM _ kvs) as [objs|] eqn:Hm; [|discriminate]. cbn [bind].
  intro Hv. injection Hv as <-. exists objs. split; [|reflexivity].
  exact (mapM_Forall2 _ _ _ Hm).
Qed.

Lemma Body_init_list_spec (E : env) (kvs : list (pyval * pyval))
    (config errors kwargs v : pyval) :
  Body_init_list E (VDict kvs) config errors kwargs = Ok v ->
  exists bodies,
    Forall2 (fun kv b => Body_init E (fst kv) (snd kv) config errors kwargs = Ok b)
      kvs bodies /\ v = VList bodies.
Proof.
  unfold Body_init_list.
  destruct (mapM _ kvs) as [bodies|] eqn:Hm; [|discriminate]. cbn [bind].
  intro Hv. injection Hv as <-. exists bodies. split; [|reflexivity].
  exact (mapM_Forall2 _ _ _ Hm).
Qed.

Lemma BaseParameter_init_keys (E : env) (cls : param_cls)
    (name data config errors kwargs r : pyval) :
  BaseParameter_init E cls name data config errors kwargs = Ok r ->
  exists inst, r = VObj (cls_name cls) inst /\ map fst inst = map fname (cls_fields cls).
Proof.
  unfold BaseParameter_init.
  destruct (attrs_new E (cls_fields cls) _) as [inst|] eqn:Ha; [|discriminate].
  intro Hr. injection Hr as <-. exists inst. split; [reflexivity|].
  exact (attrs_new_keys E _ _ inst Ha).
Qed.

(** X1: [BaseParameter.init_list] on a mapping gives [None] when the
    mapping is empty, and otherwise one record per key, in the mapping's
    order: each of the class [init_list] was called on, named by its key,
    with [raw] the one-entry mapping of its key and declaration, and the
    [config] and [errors] passed to [init_list]. *)
Theorem init_list_one_record_per_key (E : env) (cls : param_cls)
    (kvs : list (pyval * pyval)) (config errors kwargs v : pyval) :
  BaseParameter_init_list E cls (VDict kvs) config errors kwargs = Ok v ->
  (kvs = [] /\ v = VNone) \/
  (kvs <> [] /\ exists objs, v = VList objs /\
     Forall2 (fun kv o => exists inst, o = VObj (cls_name cls) inst /\
                getattr_opt inst "name" = Some (fst kv) /\
                getattr_opt inst "raw" = Some (VDict [(fst kv, snd kv)]) /\
                getattr_opt inst "config" = Some config /\
                getattr_opt inst "errors" = Some errors) kvs objs).
Proof.
  intro H. destruct (BaseParameter_init_list_spec E _ _ _ _ _ _ H) as [objs [Hf ->]].
  destruct objs as [|o objs].
  - inversion Hf; subst. left. split; reflexivity.
  - right. split; [intro Hk; subst kvs; inversion Hf|].
    exists (o :: objs). split; [reflexivity|].
    revert Hf. apply Forall2_impl. intros kv r Hr.
    destruct (BaseParameter_init_fields E _ _ _ _ _ _ _ Hr) as [inst [-> Hv]].
    destruct cls; [rewrite BaseParameter_init_raises in Hr; discriminate| | | |];
      exists inst; (split; [reflexivity|]);
      repeat split; apply Hv; first [reflexivity | simpl; tauto].
Qed.

(** X2: [Body.init_list] on a mapping gives a list (never [None]) of one
    [Body] per key, in the mapping's order, with [mime_type] the key,
    [raw] the declaration, and the [config] and [errors] passed in. *)
Theorem body_init_list_one_body_per_key (E : env) (kvs : list (pyval * pyval))
    (config errors kwargs v : pyval) :
  Body_init_list E (VDict kvs) config errors kwargs = Ok v ->
  exists bodies, v = VList bodies /\
    Forall2 (fun kv b => exists inst, b = VObj "Body" inst /\
               getattr_opt inst "mime_type" = Some (fst kv) /\
               getattr_opt inst "raw" = Some (snd kv) /\
               getattr_opt inst "config" = Some config /\
               getattr_opt inst "errors" = Some errors) kvs bodies.
Proof.
  intro H. destruct (Body_init_list_spec E _ _ _ _ _ H) as [bodies [Hf ->]].
  exists bodies. split; [reflexivity|].
  revert Hf. apply Forall2_impl. intros kv b Hb.
  destruct (Body_init_fields E _ _ _ _ _ _ Hb) as [inst [s [x [-> Hv]]]].
  exists inst. split; [reflexivity|].
  repeat split; apply Hv; first [reflexivity | simpl; tauto].
Qed.


(** X4: [init] reads its keyword arguments only for [Header]: for every
    other class the result does not depend on them, and a record it
    builds has no [method] attribute at all; a [Header] record's
    [method] is [kwargs.get("method")]. *)
Theorem init_uses_kwargs_only_for_header_method (E : env) (cls : param_cls)
    (name data config errors kwargs kwargs' : pyval) :
  (cls <> Header ->
   BaseParameter_init E cls name data config errors kwargs =
   BaseParameter_init E cls name data config errors kwargs') /\
  (forall r, BaseParameter_init E cls name data config errors kwargs = Ok r ->
   exists inst, r = VObj (cls_name cls) inst /\
     getattr_opt inst "method" =
       match cls with
       | Header => Some (_get kwargs (VStr "method") VNone)
       | _ => None
       end).
Proof.
  split.
  - intro Hc. unfold BaseParameter_init.
    replace (init_arguments cls name data config errors kwargs')
      with (init_arguments cls name data config errors kwargs); [reflexivity|].
    destruct cls; [| | | |congruence]; unfold init_arguments; reflexivity.
  - intros r Hr.
    destruct (BaseParameter_init_fields E _ _ _ _ _ _ _ Hr) as [inst [Hi Hv]].
    destruct (BaseParameter_init_keys E _ _ _ _ _ _ _ Hr) as [inst' [Hi' Hk]].
    rewrite Hi in Hi'. injection Hi' as <-.
    exists inst. split; [exact Hi|].
    destruct cls;
      try (apply getattr_opt_notin; rewrite Hk; intro Hin;
           apply In_existsb in Hin; vm_compute in Hin; discriminate Hin).
    apply Hv; [reflexivity | simpl; tauto].
Qed.

(** X5: the record [init] builds takes each attribute from its RAML key,
    or the key's default when the declaration has no such key (or is not
    a mapping): [description] to [desc], [displayName] to [display_name]
    (default the parameter's name), [minLength] to [min_length],
    [maxLength] to [max_length], [minimum], [maximum], [default], [enum],
    [example], [repeat] (default [False]), [pattern], and [type]
    (default ["string"]); other defaults are [None]. *)
Theorem init_reads_declaration_keys (E : env) (cls : param_cls)
    (name data config errors kwargs r : pyval) :
  BaseParameter_init E cls name data config errors kwargs = Ok r ->
  exists inst, r = VObj (cls_name cls) inst /\
    Forall (fun '(key, a, d) => getattr_opt inst a = Some (_get data (VStr key) d))
      [("description", "desc", VNone); ("displayName", "display_name", name);
       ("minLength", "min_length", VNone); ("maxLength", "max_length", VNone);
       ("minimum", "minimum", VNone); ("maximum", "maximum", VNone);
       ("default", "default", VNone); ("enum", "enum", VNone);
       ("example", "example", VNone); ("repeat", "repeat", VBool false);
       ("pattern", "pattern", VNone); ("type", "type", VStr "string")].
Proof.
  intro Hr.
  destruct (BaseParameter_init_fields E _ _ _ _ _ _ _ Hr) as [inst [-> Hv]].
  exists inst. split; [reflexivity|].
  destruct cls; [rewrite BaseParameter_init_raises in Hr; discriminate| | | |];
    repeat (apply Forall_cons; [apply Hv; [reflexivity | simpl; tauto]|]);
    apply Forall_nil.
Qed.

Lemma Forall2_Forall_r {A B : Type} (R : A -> B -> Prop) (P : B -> Prop)
    (xs : list A) (ys : list B) :
  (forall x y, R x y -> P y) -> Forall2 R xs ys -> Forall P ys.
Proof. intros HR H. induction H; constructor; eauto. Qed.

Lemma Response_init_spec (E : env) (name data config errors kwargs r : pyval) :
  Response_init E name data config errors kwargs = Ok r ->
  exists kvs headers body inst,
    data = VDict kvs /\
    BaseParameter_init_list E Header (_get data (VStr "headers") (VDict [])) config
      BaseParameter_init_list_errors_default (VDict []) = Ok headers /\
    Body_init_list E (_get data (VStr "body") (VDict [])) config
      Body_init_list_errors_default (VDict []) = Ok body /\
    attrs_new E Response_fields
      (Response_arguments name data headers body config errors) = Ok inst /\
    r = VObj "Response" inst.
Proof.
  unfold Response_init. destruct data as [| | | | | kvs | |]; try discriminate.
  destruct (BaseParameter_init_list E Header _ _ _ _) as [headers|] eqn:Hh; [|discriminate].
  cbn [bind].
  destruct (Body_init_list E _ _ _ _) as [body|] eqn:Hb; [|discriminate]. cbn [bind].
  destruct (attrs_new E Response_fields _) as [inst|] eqn:Ha; [|discriminate].
  intro Hr. injection Hr as <-. exists kvs, headers, body, inst. auto.
Qed.

(** X6: a record [Response.init] builds has [desc] the declaration's
    [description], [method] [None] (no argument of [init] sets it), and
    [headers] [None] but [body] the empty list when the declaration has
    no (or an empty) [headers], respectively [body]. *)
Theorem response_init_defaults (E : env) (name data config errors kwargs r : pyval) :
  Response_init E name data config errors kwargs = Ok r ->
  exists inst, r = VObj "Response" inst /\
    getattr_opt inst "desc" = Some (_get data (VStr "description") VNone) /\
    getattr_opt inst "method" = Some VNone /\
    (_get data (VStr "headers") (VDict []) = VDict [] ->
     getattr_opt inst "headers" = Some VNone) /\
    (_get data (VStr "body") (VDict []) = VDict [] ->
     getattr_opt inst "body" = Some (VList [])).
Proof.
  intro Hr.
  destruct (Response_init_spec E _ _ _ _ _ _ Hr)
    as [kvs [headers [body [inst [Hd [Hh [Hb [Ha ->]]]]]]]].
  pose proof (attrs_new_values E _ _ inst Ha) as Hv.
  exists inst. split; [reflexivity|].
  split; [apply Hv; [reflexivity | simpl; tauto]|].
  split; [exact (attrs_new_default E _ _ inst "method" _ VNone Ha eq_refl eq_refl eq_refl)|].
  split.
  - intro E0. rewrite E0 in Hh. cbn in Hh. injection Hh as <-.
    apply Hv; [reflexivity | simpl; tauto].
  - intro E0. rewrite E0 in Hb. cbn in Hb. injection Hb as <-.
    apply Hv; [reflexivity | simpl; tauto].
Qed.

(** X7: the [Header] records [Response.init] builds for a response's
    [headers] never carry an HTTP method ([Header.init_list] is called
    without keyword arguments): each has [method] [None], and the
    response's [config]. *)
Theorem response_headers_have_no_method (E : env) (name data config errors kwargs r : pyval) :
  Response_init E name data config errors kwargs = Ok r ->
  exists inst headers, r = VObj "Response" inst /\
    getattr_opt inst "headers" = Some headers /\
    (headers = VNone \/
     exists hs, headers = VList hs /\
       Forall (fun h => exists hi, h = VObj "Header" hi /\
                 getattr_opt hi "method" = Some VNone /\
                 getattr_opt hi "config" = Some config) hs).
Proof.
  intro Hr.
  destruct (Response_init_spec E _ _ _ _ _ _ Hr)
    as [kvs [headers [body [inst [Hd [Hh [Hb [Ha ->]]]]]]]].
  exists inst, headers. split; [reflexivity|].
  split; [apply (attrs_new_values E _ _ inst Ha); [reflexivity | simpl; tauto]|].
  destruct (_get data (VStr "headers") (VDict [])) as [| | | | | hkvs | |];
    try (cbn in Hh; discriminate Hh).
  destruct (BaseParameter_init_list_spec E _ _ _ _ _ _ Hh) as [objs [Hf ->]].
  destruct objs as [|o objs]; [left; reflexivity|right].
  exists (o :: objs). split; [reflexivity|].
  refine (Forall2_Forall_r _ _ _ _ _ Hf). intros kv h Hi. cbn beta in Hi.
  destruct (BaseParameter_init_fields E _ _ _ _ _ _ _ Hi) as [hi [-> Hv]].
  exists hi. split; [reflexivity|].
  split; apply Hv; first [reflexivity | simpl; tauto].
Qed.






Lemma classes_params (o : pyval) (a : string) (cls : param_cls) :
  classes o = Some (DParams a cls) ->
  a = "query_params" \/ a = "uri_params" \/ a = "form_params".
Proof.
  destruct o as [| | | s | | | |]; try discriminate.
  unfold classes.
  repeat match goal with
         | |- context [match ?x with _ => _ end] => destruct x
         end; try discriminate; intro H; injection H as <- <-; auto.
Qed.

Lemma other_attrs (o : pyval) (a : string) :
  other o = Some a -> a = "usage" \/ a = "media_type" \/ a = "protocols".
Proof.
  destruct o as [| | | s | | | |]; try discriminate.
  unfold other.
  repeat match goal with
         | |- context [match ?x with _ => _ end] => destruct x
         end; try discriminate; intro H; injection H as <-; auto.
Qed.

Ltac frame_setattr Hn :=
  rewrite getattr_opt_setattr;
  destruct Hn as [<-|[<-|[<-|[<-|[<-|[<-|[<-|[<-|[]]]]]]]]]; reflexivity.

(** The attributes a [describedBy] entry never sets. *)
Lemma described_by_step_frame (E : env) (config : pyval) (s s' : obj)
    (kv : pyval * pyval) (n : string) :
  described_by_step E config (Ok s) kv = Ok s' ->
  In n ["name"; "raw"; "type"; "described_by"; "desc"; "settings"; "config"; "errors"] ->
  getattr_opt s' n = getattr_opt s n.
Proof.
  destruct kv as [o sd]. unfold described_by_step. cbn [bind].
  intros H Hn.
  destruct (classes o) as [c|] eqn:Ec.
  - destruct c as [| | |a cls]; cbn [dispatch_init_list] in H;
      match type of H with bind ?m _ = _ => destruct m end; cbn [bind] in H;
      try discriminate; injection H as <-.
    + frame_setattr Hn.
    + frame_setattr Hn.
    + frame_setattr Hn.
    + apply classes_params in Ec. destruct Ec as [ -> | [ -> | -> ]]; frame_setattr Hn.
  - destruct (py_eq o (VStr "documentation")).
    + destruct sd; try discriminate.
      destruct (mapM Documentation_of xs); cbn [bind] in H; try discriminate.
      injection H as <-. frame_setattr Hn.
    + destruct (other o) as [a|] eqn:Eo; injection H as <-; [|reflexivity].
      apply other_attrs in Eo. destruct Eo as [ -> | [ -> | -> ]]; frame_setattr Hn.
Qed.

Lemma described_by_fold_err (E : env) (config : pyval) (items : list (pyval * pyval))
    (e : exn) :
  fold_left (described_by_step E config) items (Err e) = Err e.
Proof. induction items; [reflexivity|exact IHitems]. Qed.

Lemma described_by_fold_frame (E : env) (config : pyval) (items : list (pyval * pyval))
    (s s' : obj) (n : string) :
  fold_left (described_by_step E config) items (Ok s) = Ok s' ->
  In n ["name"; "raw"; "type"; "described_by"; "desc"; "settings"; "config"; "errors"] ->
  getattr_opt s' n = getattr_opt s n.
Proof.
  revert s. induction items as [|kv items IH]; intros s H Hn; cbn [fold_left] in H.
  - injection H as <-. reflexivity.
  - destruct (described_by_step E config (Ok s) kv) as [t|e] eqn:Es.
    + rewrite (IH t H Hn). exact (described_by_step_frame E config s t kv n Es Hn).
    + rewrite described_by_fold_err in H. discriminate.
Qed.

Lemma SecurityScheme_of_spec (E : env) (root : obj) (s o : pyval) :
  SecurityScheme_of E root s = Ok o ->
  exists name data rest inst,
    s = VDict ((name, data) :: rest) /\ o = VObj "SecurityScheme" inst /\
    getattr_opt inst "name" = Some name /\ getattr_opt inst "raw" = Some data /\
    getattr_opt inst "config" = getattr_opt root "config" /\
    getattr_opt inst "errors" = getattr_opt root "errors".
Proof.
  unfold SecurityScheme_of.
  destruct s as [| | | | | [|[name data] rest] | |]; try discriminate.
  destruct data as [| | | | | dkvs | |]; try discriminate.
  destruct (getattr_opt root "config") as [config|] eqn:Ec; [|discriminate].
  destruct (getattr_opt root "errors") as [errors|] eqn:Ee; [|discriminate].
  destruct (attrs_new E SecurityScheme_fields _) as [sinst|] eqn:Ha; [|discriminate].
  cbn [bind].
  destruct (getattr sinst "described_by" VNone) as [| | | | | items | |]; try discriminate.
  destruct (fold_left (described_by_step E config) items (Ok sinst)) as [inst|] eqn:Hf;
    [|discriminate].
  cbn [bind]. intro H. injection H as <-.
  pose proof (attrs_new_values E _ _ sinst Ha) as Hv.
  exists name, (VDict dkvs), rest, inst.
  split; [reflexivity|]. split; [reflexivity|].
  repeat split;
    (rewrite (described_by_fold_frame E config items sinst inst _ Hf);
       [apply Hv; [reflexivity | simpl; tauto] | simpl; tauto]).
Qed.

(** X9: [SecurityScheme.from_file] gives [None] when the RAML mapping
    declares no [securitySchemes]; otherwise, when it does not raise and
    returns a list, that list has one [SecurityScheme] per entry of
    [securitySchemes], in order, each named by the entry's first key,
    with [raw] that key's declaration and the root's [config] and
    [errors]: no [describedBy] entry overwrites these. *)
Theorem from_file_one_scheme_per_entry (E : env) (root : obj) :
  (forall kvs, dict_get kvs (VStr "securitySchemes") = None ->
   SecurityScheme_from_file E (VDict kvs) root = Ok VNone) /\
  (forall raml v, SecurityScheme_from_file E raml root = Ok v ->
   v = VNone \/
   exists schemes objs,
     _get raml (VStr "securitySchemes") (VList []) = VList schemes /\
     v = VList objs /\
     Forall2 (fun s o => exists name data rest inst,
                s = VDict ((name, data) :: rest) /\ o = VObj "SecurityScheme" inst /\
                getattr_opt inst "name" = Some name /\ getattr_opt inst "raw" = Some data /\
                getattr_opt inst "config" = getattr_opt root "config" /\
                getattr_opt inst "errors" = getattr_opt root "errors") schemes objs).
Proof.
  split.
  - intros kvs H. unfold SecurityScheme_from_file, _get. rewrite H. reflexivity.
  - intros raml v H. unfold SecurityScheme_from_file in H.
    destruct raml as [| | | | | kvs | |]; try discriminate.
    destruct (_get (VDict kvs) (VStr "securitySchemes") (VList [])) as
      [| | | s | schemes | [|kv dk] | |] eqn:Eg; try discriminate.
    + destruct s as [|c s]; [left; injection H as <-; reflexivity|].
      destruct c; discriminate.
    + destruct (mapM (SecurityScheme_of E root) schemes) as [objs|] eqn:Hm;
        [|discriminate].
      cbn [bind] in H. injection H as <-.
      destruct objs as [|o objs]; [left; reflexivity|right].
      exists schemes, (o :: objs). split; [reflexivity|]. split; [reflexivity|].
      pose proof (mapM_Forall2 _ _ _ Hm) as Hf. revert Hf. apply Forall2_impl.
      intros s' o' Hs. exact (SecurityScheme_of_spec E root s' o' Hs).
    + left. injection H as <-. reflexivity.
Qed.


Lemma fill_unset_some (ns : list string) (self p : obj) (m : string) :
  existsb (String.eqb m) ns = true \/ getattr_opt self m <> None ->
  getattr_opt (fill_unset self p ns) m <> None.
Proof.
  rewrite fill_unset_spec. unfold getattr.
  destruct (existsb (String.eqb m) ns), (getattr_opt self m) as [w|];
    simpl; intros [H|H]; try discriminate; try exact H;
    destruct w; simpl; discriminate.
Qed.

Lemma fold_fill_keep (ns : list string) (ps : list obj) (self : obj) (m : string) :
  getattr_opt self m <> None ->
  getattr_opt (fold_left (fun s p => fill_unset s p ns) ps self) m <> None.
Proof.
  revert self. induction ps as [|p ps IH]; intros self H; [exact H|].
  apply IH. apply fill_unset_some. right. exact H.
Qed.

Lemma fold_fill_idem (ns : list string) (ps : list obj) (self : obj) (m : string) :
  getattr_opt (fold_left (fun s p => fill_unset s p ns) ps
                 (fold_left (fun s p => fill_unset s p ns) ps self)) m =
  getattr_opt (fold_left (fun s p => fill_unset s p ns) ps self) m.
Proof.
  destruct ps as [|p ps']; [reflexivity|].
  pose proof (fold_fill_getattr ns (p :: ps') self m) as G1.
  pose proof (fold_fill_getattr ns (p :: ps')
                (fold_left (fun s p => fill_unset s p ns) (p :: ps') self) m) as G2.
  assert (Hs : forall u, getattr_opt (fold_left (fun s p => fill_unset s p ns) (p :: ps') u) m
                         <> None \/ existsb (String.eqb m) ns = false).
  { intro u. destruct (existsb (String.eqb m) ns) eqn:Ee; [left|right; reflexivity].
    cbn [fold_left]. apply fold_fill_keep. apply fill_unset_some. left. exact Ee. }
  set (t := fold_left (fun s p => fill_unset s p ns) (p :: ps') self) in *.
  destruct (existsb (String.eqb m) ns && is_none (getattr t m VNone)) eqn:C.
  2: exact (fold_fill_frame ns (p :: ps') t m C).
  apply andb_prop in C as [Ee En].
  rewrite ?Ee, ?En in G2. cbn [andb] in G2.
  assert (Hv : getattr t m VNone = VNone)
    by (destruct (getattr t m VNone); try discriminate; reflexivity).
  assert (Hfs : first_set m (p :: ps') = VNone).
  { rewrite Hv, Ee in G1. cbn [andb] in G1.
    destruct (is_none (getattr self m VNone)) eqn:Es; [symmetry; exact G1|].
    rewrite <- G1 in Es. discriminate. }
  rewrite Hfs, <- Hv in G2.
  destruct (Hs t) as [Hs2|Hs2]; [|rewrite Hs2 in Ee; discriminate].
  destruct (Hs self) as [Hs1|Hs1]; [|rewrite Hs1 in Ee; discriminate].
  fold t in Hs1.
  unfold getattr in G2.
  destruct (getattr_opt (fold_left _ (p :: ps') t) m); [|contradiction].
  destruct (getattr_opt t m); [|contradiction].
  rewrite G2. reflexivity.
Qed.

(** X11: merging is idempotent: running [Header]'s or [Response]'s
    [_inherit_type_properties] a second time with the same ancestors
    changes no attribute. *)
Theorem merge_idempotent (self : obj) (ps : list obj) (n : string) :
  getattr_opt (Header_inherit_type_properties (Header_inherit_type_properties self ps) ps) n
  = getattr_opt (Header_inherit_type_properties self ps) n /\
  getattr_opt (Response_inherit_type_properties (Response_inherit_type_properties self ps) ps) n
  = getattr_opt (Response_inherit_type_properties self ps) n.
Proof.
  split; [exact (fold_fill_idem (NAMED_PARAMS ++ ["method"]) ps self n)
         |exact (fold_fill_idem NAMED_PARAMS ps self n)].
Qed.

(** X12: [BaseParameter]'s and [Response]'s merges touch nothing but the
    attributes of [NAMED_PARAMS]: [name], [raw], [config], [errors] (and
    a response's [code], [headers], [body]) are left as they were. *)
Theorem merges_touch_only_named_params (self : obj) (ps : list obj) (n : string) :
  ~ In n NAMED_PARAMS ->
  (forall r, BaseParameter_inherit_type_properties self ps = Ok r ->
             getattr_opt r n = getattr_opt self n) /\
  getattr_opt (Response_inherit_type_properties self ps) n = getattr_opt self n.
Proof.
  intro Hn. pose proof (notIn_existsb n NAMED_PARAMS Hn) as He.
  split.
  - intros r Hr. apply (BaseParameter_inherit_frame ps self r n Hr). rewrite He. reflexivity.
  - apply fold_fill_frame. rewrite He. reflexivity.
Qed.

Lemma init_list_one_record_per_key_witness :
  exists v,
    BaseParameter_init_list spec_env QueryParameter
      (VDict [(VStr "page", VNone); (VStr "limit", VDict [])])
      (VDict []) (VRef 9) (VDict []) = Ok v /\
    exists objs, v = VList objs /\ length objs = 2.
Proof.
  eexists. split; [vm_compute; reflexivity|].
  match goal with
  | |- exists objs, ?v = _ /\ _ =>
      destruct (init_list_one_record_per_key spec_env QueryParameter
                  [(VStr "page", VNone); (VStr "limit", VDict [])]
                  (VDict []) (VRef 9) (VDict []) v ltac:(vm_compute; reflexivity))
        as [[Hk _]|[_ [objs [Hv Hf]]]]; [discriminate Hk|]
  end.
  exists objs. split; [exact Hv|]. rewrite <- (Forall2_length Hf). reflexivity.
Defined.

Lemma body_init_list_one_body_per_key_witness :
  exists v,
    Body_init_list spec_env
      (VDict [(VStr "application/json", VDict [(VStr "schema", VStr "{}")])])
      (VDict []) (VRef 9) (VDict []) = Ok v /\
    exists bodies, v = VList bodies /\ length bodies = 1.
Proof.
  eexists. split; [vm_compute; reflexivity|].
  match goal with
  | |- exists bodies, ?v = _ /\ _ =>
      destruct (body_init_list_one_body_per_key spec_env
                  [(VStr "application/json", VDict [(VStr "schema", VStr "{}")])]
                  (VDict []) (VRef 9) (VDict []) v ltac:(vm_compute; reflexivity))
        as [bodies [Hv Hf]]
  end.
  exists bodies. split; [exact Hv|]. rewrite <- (Forall2_length Hf). reflexivity.
Defined.


Lemma init_uses_kwargs_only_for_header_method_witness :
  BaseParameter_init spec_env QueryParameter (VStr "page") VNone (VDict []) (VRef 9)
    (VDict []) =
  BaseParameter_init spec_env QueryParameter (VStr "page") VNone (VDict []) (VRef 9)
    (VDict [(VStr "method", VStr "get")]) /\
  exists r,
    BaseParameter_init spec_env Header (VStr "X-Foo") VNone (VDict []) (VRef 9)
      (VDict [(VStr "method", VStr "get")]) = Ok r /\
    exists inst, r = VObj "Header" inst /\ getattr_opt inst "method" = Some (VStr "get").
Proof.
  split.
  - exact (proj1 (init_uses_kwargs_only_for_header_method spec_env QueryParameter
                    (VStr "page") VNone (VDict []) (VRef 9) (VDict [])
                    (VDict [(VStr "method", VStr "get")])) ltac:(discriminate)).
  - eexists. split; [vm_compute; reflexivity|].
    match goal with
    | |- exists inst, ?r = _ /\ _ =>
        exact (proj2 (init_uses_kwargs_only_for_header_method spec_env Header
                        (VStr "X-Foo") VNone (VDict []) (VRef 9)
                        (VDict [(VStr "method", VStr "get")]) (VDict []))
                 r ltac:(vm_compute; reflexivity))
    end.
Defined.

Lemma init_reads_declaration_keys_witness :
  exists r,
    BaseParameter_init spec_env QueryParameter (VStr "page")
      (VDict [(VStr "displayName", VStr "Page"); (VStr "minimum", VInt 1);
              (VStr "type", VStr "integer")])
      (VDict []) (VRef 9) (VDict []) = Ok r /\
    exists inst, r = VObj "QueryParameter" inst /\
      getattr_opt inst "display_name" = Some (VStr "Page") /\
      getattr_opt inst "minimum" = Some (VInt 1).
Proof.
  eexists. split; [vm_compute; reflexivity|].
  match goal with
  | |- exists inst, ?r = _ /\ _ =>
      destruct (init_reads_declaration_keys spec_env QueryParameter (VStr "page")
                  (VDict [(VStr "displayName", VStr "Page"); (VStr "minimum", VInt 1);
                          (VStr "type", VStr "integer")])
                  (VDict []) (VRef 9) (VDict []) r ltac:(vm_compute; reflexivity))
        as [inst [Hr HF]]
  end.
  exists inst. split; [exact Hr|]. split.
  - exact (Forall_inv (Forall_inv_tail HF)).
  - exact (Forall_inv (Forall_inv_tail (Forall_inv_tail (Forall_inv_tail
             (Forall_inv_tail HF))))).
Defined.

Lemma response_init_defaults_witness :
  exists r,
    Response_init spec_env (VInt 200) (VDict [(VStr "description", VStr "OK")])
      (VDict []) (VRef 9) (VDict []) = Ok r /\
    exists inst, r = VObj "Response" inst /\
      getattr_opt inst "headers" = Some VNone /\
      getattr_opt inst "body" = Some (VList []).
Proof.
  eexists. split; [vm_compute; reflexivity|].
  match goal with
  | |- exists inst, ?r = _ /\ _ =>
      destruct (response_init_defaults spec_env (VInt 200)
                  (VDict [(VStr "description", VStr "OK")])
                  (VDict []) (VRef 9) (VDict []) r ltac:(vm_compute; reflexivity))
        as [inst [Hr [_ [_ [Hh Hb]]]]]
  end.
  exists inst. split; [exact Hr|]. split; [exact (Hh eq_refl) | exact (Hb eq_refl)].
Defined.

Lemma response_headers_have_no_method_witness :
  exists r,
    Response_init spec_env (VInt 200)
      (VDict [(VStr "headers", VDict [(VStr "X-Foo", VDict [])])])
      (VDict []) (VRef 9) (VDict [(VStr "method", VStr "get")]) = Ok r /\
    exists inst headers, r = VObj "Response" inst /\
      getattr_opt inst "headers" = Some headers /\
      (headers = VNone \/
       exists hs, headers = VList hs /\
         Forall (fun h => exists hi, h = VObj "Header" hi /\
                   getattr_opt hi "method" = Some VNone /\
                   getattr_opt hi "config" = Some (VDict [])) hs).
Proof.
  eexists. split; [vm_compute; reflexivity|].
  match goal with
  | |- exists inst headers, ?r = _ /\ _ =>
      exact (response_headers_have_no_method spec_env (VInt 200)
               (VDict [(VStr "headers", VDict [(VStr "X-Foo", VDict [])])])
               (VDict []) (VRef 9) (VDict [(VStr "method", VStr "get")]) r
               ltac:(vm_compute; reflexivity))
  end.
Defined.


Lemma from_file_one_scheme_per_entry_witness :
  SecurityScheme_from_file spec_env (VDict [(VStr "title", VStr "API")])
    [("config", VDict []); ("errors", VRef 7)] = Ok VNone /\
  exists v,
    SecurityScheme_from_file spec_env
      (VDict [(VStr "securitySchemes",
               VList [VDict [(VStr "basic", VDict [(VStr "type", VStr "Basic Authentication")])]])])
      [("config", VDict []); ("errors", VRef 7)] = Ok v /\
    (v = VNone \/
     exists schemes objs,
       v = VList objs /\ length objs = length schemes /\
       schemes = [VDict [(VStr "basic", VDict [(VStr "type", VStr "Basic Authentication")])]]).
Proof.
  split.
  - exact (proj1 (from_file_one_scheme_per_entry spec_env
                    [("config", VDict []); ("errors", VRef 7)])
             [(VStr "title", VStr "API")] eq_refl).
  - eexists. split; [vm_compute; reflexivity|].
    match goal with
    | |- ?v = VNone \/ _ =>
        destruct (proj2 (from_file_one_scheme_per_entry spec_env
                           [("config", VDict []); ("errors", VRef 7)])
                    (VDict [(VStr "securitySchemes",
                             VList [VDict [(VStr "basic",
                                            VDict [(VStr "type", VStr "Basic Authentication")])]])])
                    v ltac:(vm_compute; reflexivity))
          as [H|[schemes [objs [Hs [Hv Hf]]]]]; [left; exact H|]
    end.
    right. exists schemes, objs. split; [exact Hv|].
    split; [symmetry; exact (Forall2_length Hf)|].
    vm_compute in Hs. injection Hs as <-. reflexivity.
Defined.


Lemma merges_touch_only_named_params_witness :
  getattr_opt
    (Response_inherit_type_properties [("code", VInt 200); ("raw", VDict [])]
       [[("code", VInt 200); ("raw", VStr "other"); ("type", VStr "integer")]]) "raw"
  = Some (VDict []).
Proof.
  rewrite (proj2 (merges_touch_only_named_params [("code", VInt 200); ("raw", VDict [])]
                    [[("code", VInt 200); ("raw", VStr "other"); ("type", VStr "integer")]]
                    "raw" (fun H => ltac:(apply In_existsb in H; vm_compute in H;
                                          discriminate H)))).
  reflexivity.
Defined.
